(** * Plecost report writers: [plecost_lib/libs/reporters.py]

    The module serialises a scan result to a JSON or an XML file and selects
    the writer class from the extension of the output file name.  It is
    embedded here as Python programs over an explicit object store: every
    container the code mutates (dicts, lists, XML elements, instances) lives
    in the store and is reached through references, so that aliasing and
    in-place updates are those of the source.  Paths are POSIX paths. *)

From Stdlib Require Import ZArith Ascii String List Lia Bool.
From stdpp Require Import base gmap strings list.

Set Warnings "-register-all".
Local Open Scope Z_scope.

(** ** Values, objects and documents *)

(** Locations of the store. *)
Abbreviation loc := nat (only parsing).

(** The classes this module defines. *)
Inductive pyclass := Reporter | ReporterJSON | ReporterXML.

(** A [datetime.datetime] value (naive, no time zone). *)
Record datetime := mkDatetime {
  dt_year : Z; dt_month : Z; dt_day : Z;
  dt_hour : Z; dt_minute : Z; dt_second : Z
}.

Inductive val :=
| VNone
| VNotImplemented
| VBool (b : bool)
| VInt (z : Z)
| VStr (s : string)
| VDatetime (d : datetime)
| VClass (c : pyclass)
| VFile (fd : nat)
| VRef (l : loc).

(** A Python [dict] with [str] keys: insertion-ordered. *)
Definition pydict := list (string * val).

Inductive obj :=
| OList (items : list val)
| ODict (d : pydict)
| OInst (c : pyclass) (d : pydict)   (* instance of a class of this module *)
| OData (d : pydict)                 (* instance of a class of the scanner's data model *)
| OElement (tag : string) (attrib : pydict) (text : val) (children : list loc).

(** Modelled from the spec: the exception class [PlecostInvalidReportFormat]
    is defined in the module [exceptions] of the package; section 7 has it
    carry the offending extension in its message, which the source builds.
    The constructors before it are built-in exception classes.
    [Unmodelled] is no exception of Python: it ends a run at a point from
    which the code goes on in a way these definitions do not describe (a
    file name that is an integer stands for a descriptor of the process, an
    attribute value that is a list is written as its [repr]).  Only values
    outside the data model of the scan result lead there, and nothing is
    proved about such a run. *)
Inductive exn :=
| TypeError
| KeyError
| AttributeError
| ValueError
| OSError
| RecursionError
| PlecostInvalidReportFormat (msg : string)
| Unmodelled.

(** What [json.dump] and [ElementTree.write] emit, up to the concrete text:
    the document as a tree. *)
Inductive json :=
| JNull
| JBool (b : bool)
| JNum (z : Z)
| JStr (s : string)
| JArr (items : list json)
| JObj (members : list (string * json)).

Inductive xml :=
| XNode (tag : string) (attrs : list (string * string)) (text : option string)
        (children : list xml).

Inductive payload :=
| JSONText (j : json)
| XMLText (encoding : string) (x : xml)
| PartialText.   (* some prefix of a serialisation that failed part-way *)

(** ** Files *)

Record handle := mkHandle { h_path : string; h_closed : bool }.

(** [fs_denied] lists the names that cannot be opened for writing: the paths
    the operating system refuses (missing directory, permissions, ...) and
    the names that are no path at all (an embedded NUL character);
    [fs_files] maps a path to what has been written to it through file
    objects, in order (buffering is not modelled); [fs_handles] is the table
    of the file objects ever opened. *)
Record filesystem := mkFS {
  fs_denied : gset string;
  fs_files : gmap string (list payload);
  fs_handles : list handle
}.

Record world := mkWorld { w_heap : list obj; w_fs : filesystem }.

(** ** The monad of Python programs: state that survives exceptions *)

Inductive result (A : Type) :=
| Ok (a : A)
| Raise (e : exn).
Arguments Ok {A} a.
Arguments Raise {A} e.

Definition M (A : Type) : Type := world -> result A * world.

Definition ret {A} (a : A) : M A := fun w => (Ok a, w).
Definition raise {A} (e : exn) : M A := fun w => (Raise e, w).
Definition bind {A B} (m : M A) (k : A -> M B) : M B :=
  fun w => match m w with
           | (Ok a, w') => k a w'
           | (Raise e, w') => (Raise e, w')
           end.

Declare Scope py_scope.
Delimit Scope py_scope with py.
Notation "x <- m ;; k" := (bind m (fun x => k))
  (at level 100, m at next level, right associativity) : py_scope.
Notation "m ;;; k" := (bind m (fun _ => k))
  (at level 100, right associativity) : py_scope.
Local Open Scope py_scope.

(** [try: body except: handler] where [handler e = None] means that the
    except clauses do not match [e]. *)
Definition try_except {A} (body : M A) (handler : exn -> option (M A)) : M A :=
  fun w => match body w with
           | (Ok a, w') => (Ok a, w')
           | (Raise e, w') =>
               match handler e with
               | Some h => h w'
               | None => (Raise e, w')
               end
           end.

(** [try: body finally: cleanup], which is also what leaving a [with]
    block does. *)
Definition try_finally {A} (body : M A) (cleanup : M unit) : M A :=
  fun w => match body w with
           | (r, w') =>
               match cleanup w' with
               | (Ok _, w'') => (r, w'')
               | (Raise e, w'') => (Raise e, w'')
               end
           end.

Fixpoint for_each {A} (items : list A) (body : A -> M unit) : M unit :=
  match items with
  | [] => ret tt
  | x :: rest => body x ;;; for_each rest body
  end.

(** ** Heap primitives *)

Definition alloc (o : obj) : M loc :=
  fun w => (Ok (length (w_heap w)),
            mkWorld (w_heap w ++ [o]) (w_fs w)).

(** The object a value refers to; [e] is what the operation at hand raises
    when the value is not a reference to an object. *)
Definition deref (e : exn) (v : val) : M (loc * obj) :=
  fun w => match v with
           | VRef l => match w_heap w !! l with
                       | Some o => (Ok (l, o), w)
                       | None => (Raise e, w)
                       end
           | _ => (Raise e, w)
           end.

Definition store (l : loc) (o : obj) : M unit :=
  fun w => (Ok tt, mkWorld (<[l := o]> (w_heap w)) (w_fs w)).

(** ** Dictionaries *)

Fixpoint dict_get (d : pydict) (k : string) : option val :=
  match d with
  | [] => None
  | (k', v) :: rest => if String.eqb k' k then Some v else dict_get rest k
  end.

(** [d[k] = v]: an existing key keeps its position, a new key goes last. *)
Fixpoint dict_set (d : pydict) (k : string) (v : val) : pydict :=
  match d with
  | [] => [(k, v)]
  | (k', v') :: rest =>
      if String.eqb k' k then (k', v) :: rest else (k', v') :: dict_set rest k v
  end.

(** ** Object operations *)

(** [o.name] on a plain instance: a lookup in the instance dictionary. *)
Definition getattr (o : val) (name : string) : M val :=
  p <- deref AttributeError o ;;
  match snd p with
  | OInst _ d | OData d =>
      match dict_get d name with
      | Some v => ret v
      | None => raise AttributeError
      end
  | _ => raise AttributeError
  end.

(** [o.name = v] on a plain instance. *)
Definition setattr (o : val) (name : string) (v : val) : M unit :=
  p <- deref AttributeError o ;;
  match snd p with
  | OInst c d => store (fst p) (OInst c (dict_set d name v))
  | OData d => store (fst p) (OData (dict_set d name v))
  | _ => raise AttributeError
  end.

(** [d[k] = v] on a dict object. *)
Definition setitem (d : val) (k : string) (v : val) : M unit :=
  p <- deref TypeError d ;;
  match snd p with
  | ODict items => store (fst p) (ODict (dict_set items k v))
  | _ => raise TypeError
  end.

(** [d[k]] on a dict object. *)
Definition getitem (d : val) (k : string) : M val :=
  p <- deref TypeError d ;;
  match snd p with
  | ODict items =>
      match dict_get items k with
      | Some v => ret v
      | None => raise KeyError
      end
  | _ => raise TypeError
  end.

(** [l.append(v)]. *)
Definition list_append (l : val) (v : val) : M unit :=
  p <- deref AttributeError l ;;
  match snd p with
  | OList items => store (fst p) (OList (items ++ [v]))
  | _ => raise AttributeError
  end.

(** The items a [for] loop or a comprehension draws from an iterable: the
    items of a list, the characters of a [str], the keys of a dict, the
    children of an XML element.  The loop bodies of this module never touch
    the object they iterate over, so the items are read once.  A file object
    opened for writing cannot be read, and how it fails depends on its
    state. *)
Definition chars (s : string) : list val :=
  map (fun c => VStr (String c EmptyString)) (list_ascii_of_string s).

Definition iter (v : val) : M (list val) :=
  match v with
  | VStr s => ret (chars s)
  | VFile _ => raise Unmodelled
  | _ =>
      p <- deref TypeError v ;;
      match snd p with
      | OList items => ret items
      | ODict d => ret (map (fun kv => VStr (fst kv)) d)
      | OElement _ _ _ children => ret (map VRef children)
      | OInst _ _ | OData _ => raise TypeError
      end
  end.

(** Truth value of a value used as a condition. *)
Definition truthy (v : val) : M bool :=
  match v with
  | VNone => ret false
  | VNotImplemented => ret true
  | VBool b => ret b
  | VInt z => ret (negb (z =? 0))
  | VStr s => ret (negb (String.eqb s EmptyString))
  | VDatetime _ | VClass _ | VFile _ => ret true
  | VRef _ =>
      p <- deref TypeError v ;;
      match snd p with
      | OList items => ret (negb (Nat.eqb (length items) 0))
      | ODict d => ret (negb (Nat.eqb (length d) 0))
      | OInst _ _ | OData _ => ret true
      | OElement _ _ _ children => ret (negb (Nat.eqb (length children) 0))
      end
  end.

(** The same as a function of the store, for the library code that tests a
    value it was handed. *)
Definition truth (h : list obj) (v : val) : bool :=
  match v with
  | VNone => false
  | VNotImplemented => true
  | VBool b => b
  | VInt z => negb (z =? 0)
  | VStr s => negb (String.eqb s EmptyString)
  | VDatetime _ | VClass _ | VFile _ => true
  | VRef l =>
      match h !! l with
      | Some (OList items) => negb (Nat.eqb (length items) 0)
      | Some (ODict d) => negb (Nat.eqb (length d) 0)
      | Some (OElement _ _ _ children) => negb (Nat.eqb (length children) 0)
      | _ => true
      end
  end.

Definition isinstance_str (v : val) : bool :=
  match v with VStr _ => true | _ => false end.

(** ** Strings *)

Definition str_len (s : string) : Z := Z.of_nat (String.length s).

(** A slice bound as Python normalises it: negative bounds count from the
    end, and the result is clamped to the string. *)
Definition slice_bound (s : string) (i : Z) : nat :=
  let n := str_len s in
  let j := if i <? 0 then i + n else i in
  Z.to_nat (Z.max 0 (Z.min j n)).

(** [s[lo:hi]], [s[lo:]] and [s[:hi]]. *)
Definition slice (s : string) (lo hi : Z) : string :=
  let a := slice_bound s lo in
  let b := slice_bound s hi in
  String.substring a (b - a) s.

Definition slice_from (s : string) (lo : Z) : string :=
  let a := slice_bound s lo in
  String.substring a (String.length s - a) s.

Definition slice_to (s : string) (hi : Z) : string :=
  String.substring 0 (slice_bound s hi) s.

(** [s.rfind(c)] for a one-character needle: the highest index holding [c],
    or -1. *)
Fixpoint rfind (s : string) (c : ascii) : Z :=
  match s with
  | EmptyString => -1
  | String a rest =>
      let r := rfind rest c in
      if 0 <=? r then r + 1
      else if Ascii.eqb a c then 0 else -1
  end.

(** The [while] loop of [genericpath._splitext]: it runs from
    [filenameIndex] up to [dotIndex] and answers [true] as soon as a
    character other than [extsep] is met; [n] is the number of iterations
    left, [dotIndex - filenameIndex]. *)
Fixpoint splitext_loop (n : nat) (p : string) (filenameIndex : Z) (extsep : ascii) : bool :=
  match n with
  | O => false
  | S n' =>
      if negb (String.eqb (slice p filenameIndex (filenameIndex + 1))
                          (String extsep EmptyString))
      then true
      else splitext_loop n' p (filenameIndex + 1) extsep
  end.

(** [genericpath._splitext(p, sep, altsep, extsep)] of the standard library. *)
Definition _splitext (p : string) (sep : ascii) (altsep : option ascii) (extsep : ascii)
  : string * string :=
  let sepIndex := rfind p sep in
  let sepIndex :=
    match altsep with
    | Some a => Z.max sepIndex (rfind p a)
    | None => sepIndex
    end in
  let dotIndex := rfind p extsep in
  if (sepIndex <? dotIndex)
     && splitext_loop (Z.to_nat (dotIndex - (sepIndex + 1))) p (sepIndex + 1) extsep
  then (slice_to p dotIndex, slice_from p dotIndex)
  else (p, slice_to p 0).

(** [os.path.splitext] ([posixpath]: [sep = '/'], no [altsep]).  Anything
    that is not a [str] is rejected by [os.fspath]. *)
Definition splitext (p : val) : M (string * string) :=
  match p with
  | VStr s => ret (_splitext s "/"%char None "."%char)
  | _ => raise TypeError
  end.

(** ** [datetime.strftime] *)

Definition digit (d : Z) : ascii := ascii_of_nat (48 + Z.to_nat d).

(** [n] in decimal on exactly [width] digits, zero-padded. *)
Fixpoint zero_pad (width : nat) (n : Z) : string :=
  match width with
  | O => EmptyString
  | S w => zero_pad w (n / 10) +:+ String (digit (n mod 10)) EmptyString
  end.

(** The year as the C library of the platform prints it for [%Y] (glibc):
    in decimal, without padding.  The years of a [datetime] are 1..9999. *)
Definition year_text (y : Z) : string :=
  if y <? 10 then zero_pad 1 y
  else if y <? 100 then zero_pad 2 y
  else if y <? 1000 then zero_pad 3 y
  else zero_pad 4 y.

(** The directives of [strftime] that take a field of the [datetime] as a
    number (the module uses [%H], [%m], [%Y], [%M] and [%S]): hours,
    minutes, seconds, days and months are below 100 and take two digits.
    The directives that depend on the locale or the calendar are not
    modelled. *)
Definition directive (d : datetime) (c : ascii) : string :=
  if Ascii.eqb c "H" then zero_pad 2 (dt_hour d)
  else if Ascii.eqb c "M" then zero_pad 2 (dt_minute d)
  else if Ascii.eqb c "S" then zero_pad 2 (dt_second d)
  else if Ascii.eqb c "d" then zero_pad 2 (dt_day d)
  else if Ascii.eqb c "m" then zero_pad 2 (dt_month d)
  else if Ascii.eqb c "Y" then year_text (dt_year d)
  else if Ascii.eqb c "%" then "%"
  else String "%" (String c EmptyString).

Fixpoint format_time (d : datetime) (fmt : string) : string :=
  match fmt with
  | EmptyString => EmptyString
  | String c rest =>
      if Ascii.eqb c "%" then
        match rest with
        | EmptyString => "%"
        | String c' rest' => directive d c' +:+ format_time d rest'
        end
      else String c (format_time d rest)
  end.

Arguments format_time : simpl never.

(** The ranges of the fields of a [datetime]. *)
Definition valid_datetime (d : datetime) : Prop :=
  1 <= dt_year d <= 9999 /\ 1 <= dt_month d <= 12 /\ 1 <= dt_day d <= 31 /\
  0 <= dt_hour d <= 23 /\ 0 <= dt_minute d <= 59 /\ 0 <= dt_second d <= 59.

(** [v.strftime(fmt)]: a method of [datetime] values only. *)
Definition strftime (v : val) (fmt : string) : M val :=
  match v with
  | VDatetime d => ret (VStr (format_time d fmt))
  | _ => raise AttributeError
  end.

(** ** File objects *)

Definition get_fs : M filesystem := fun w => (Ok (w_fs w), w).
Definition put_fs (fs : filesystem) : M unit := fun w => (Ok tt, mkWorld (w_heap w) fs).

(** Whether a name holds a NUL character. *)
Fixpoint has_nul (name : string) : bool :=
  match name with
  | EmptyString => false
  | String c rest => Ascii.eqb c Ascii.zero || has_nul rest
  end.

(** What [open] raises for a name that cannot be opened: [ValueError] for a
    name with an embedded NUL, which never reaches the operating system,
    and the [OSError] of the operating system otherwise. *)
Definition open_failure (name : string) : exn :=
  if has_nul name then ValueError else OSError.

(** [open(path, "w")].  For a path given as a [str] the file is truncated
    and a new file object made.  An integer, and so a [bool], is taken as a
    file descriptor of the process; descriptors are not part of
    [filesystem]. *)
Definition open_w (path : val) : M val :=
  match path with
  | VStr name =>
      fs <- get_fs ;;
      if decide (name ∈ fs_denied fs) then raise (open_failure name)
      else
        put_fs (mkFS (fs_denied fs)
                     (<[name := []]> (fs_files fs))
                     (fs_handles fs ++ [mkHandle name false])) ;;;
        ret (VFile (length (fs_handles fs)))
  | VBool _ | VInt _ => raise Unmodelled
  | _ => raise TypeError
  end.

(** [fp.write(data)]. *)
Definition file_write (fp : val) (data : payload) : M unit :=
  match fp with
  | VFile fd =>
      fs <- get_fs ;;
      match fs_handles fs !! fd with
      | Some h =>
          if h_closed h then raise ValueError
          else
            put_fs (mkFS (fs_denied fs)
                         (<[h_path h := default [] (fs_files fs !! h_path h) ++ [data]]>
                            (fs_files fs))
                         (fs_handles fs))
      | None => raise ValueError
      end
  | _ => raise AttributeError
  end.

(** [fp.close()]. *)
Definition file_close (fp : val) : M unit :=
  match fp with
  | VFile fd =>
      fs <- get_fs ;;
      match fs_handles fs !! fd with
      | Some h =>
          put_fs (mkFS (fs_denied fs) (fs_files fs)
                       (<[fd := mkHandle (h_path h) true]> (fs_handles fs)))
      | None => raise ValueError
      end
  | _ => raise AttributeError
  end.

(** ** Serialisers of the standard library *)

Fixpoint sequence {A} (rs : list (result A)) : result (list A) :=
  match rs with
  | [] => Ok []
  | r :: rest =>
      match r with
      | Ok a => match sequence rest with
                | Ok l => Ok (a :: l)
                | Raise e => Raise e
                end
      | Raise e => Raise e
      end
  end.

Definition result_map {A B} (f : A -> B) (r : result A) : result B :=
  match r with Ok a => Ok (f a) | Raise e => Raise e end.

(** The document [json] encodes for a value.  Following a reference costs
    one unit of [fuel]; a chain of references longer than the store has
    objects goes through a cycle, which the encoder reports as a
    [ValueError]. *)
Fixpoint json_encode (fuel : nat) (h : list obj) (v : val) : result json :=
  match v with
  | VNone => Ok JNull
  | VBool b => Ok (JBool b)
  | VInt z => Ok (JNum z)
  | VStr s => Ok (JStr s)
  | VNotImplemented | VDatetime _ | VClass _ | VFile _ => Raise TypeError
  | VRef l =>
      match fuel with
      | O => Raise ValueError
      | S fuel' =>
          match h !! l with
          | Some (OList items) =>
              result_map JArr (sequence (map (json_encode fuel' h) items))
          | Some (ODict d) =>
              result_map JObj
                (sequence (map (fun kv => result_map (pair (fst kv))
                                            (json_encode fuel' h (snd kv))) d))
          | _ => Raise TypeError
          end
      end
  end.

(** [json.dump(obj, fp)]. *)
Definition json_dump (o : val) (fp : val) : M unit :=
  fun w =>
    match json_encode (length (w_heap w)) (w_heap w) o with
    | Ok j => file_write fp (JSONText j) w
    | Raise e => (file_write fp PartialText ;;; raise e) w
    end.

(** The text of an element as the serialiser takes it: a text that is
    false as a condition ([None], but also [0] or an empty list) is no text;
    any other text must be a string. *)
Definition xml_text (h : list obj) (v : val) : result (option string) :=
  match v with
  | VNone => Ok None
  | VStr s => Ok (Some s)
  | VFile _ => Raise Unmodelled
  | _ => if truth h v then Raise TypeError else Ok None
  end.

(** An attribute as the serialiser takes it: the value must be a string.
    The test the serialiser makes ([c in value], for the characters to
    escape) lets a container through, which is then written as its
    [repr]. *)
Definition xml_attr (h : list obj) (kv : string * val) : result (string * string) :=
  match snd kv with
  | VStr s => Ok (fst kv, s)
  | VFile _ => Raise Unmodelled
  | VRef l =>
      match h !! l with
      | Some (OList _) | Some (ODict _) | Some (OElement _ _ _ _) => Raise Unmodelled
      | _ => Raise TypeError
      end
  | _ => Raise TypeError
  end.

(** The tree below an element of the store. *)
Fixpoint xml_tree (fuel : nat) (h : list obj) (l : loc) : result xml :=
  match fuel with
  | O => Raise RecursionError
  | S fuel' =>
      match h !! l with
      | Some (OElement tag attrib text children) =>
          match sequence (map (xml_attr h) attrib), xml_text h text,
                sequence (map (xml_tree fuel' h) children) with
          | Ok a, Ok t, Ok c => Ok (XNode tag a t c)
          | Raise e, _, _ | _, Raise e, _ | _, _, Raise e => Raise e
          end
      | _ => Raise TypeError
      end
  end.

(** [ET.Element(tag)]. *)
Definition Element (tag : string) : M val :=
  l <- alloc (OElement tag [] VNone []) ;;
  ret (VRef l).

(** [ET.SubElement(parent, tag)]: the new element is appended to the
    children of [parent] and returned. *)
Definition SubElement (parent : val) (tag : string) : M val :=
  p <- deref TypeError parent ;;
  match snd p with
  | OElement ptag pattrib ptext pchildren =>
      l <- alloc (OElement tag [] VNone []) ;;
      store (fst p) (OElement ptag pattrib ptext (pchildren ++ [l])) ;;;
      ret (VRef l)
  | _ => raise TypeError
  end.

(** [elem.text = v]. *)
Definition set_text (elem : val) (v : val) : M unit :=
  p <- deref AttributeError elem ;;
  match snd p with
  | OElement tag attrib _ children => store (fst p) (OElement tag attrib v children)
  | _ => raise AttributeError
  end.

(** [elem.set(key, value)]. *)
Definition Element_set (elem : val) (key : string) (value : val) : M unit :=
  p <- deref AttributeError elem ;;
  match snd p with
  | OElement tag attrib text children =>
      store (fst p) (OElement tag (dict_set attrib key value) text children)
  | _ => raise AttributeError
  end.

(** [ET.ElementTree(root).write(filename, encoding=enc)]: the file is opened,
    the tree serialised into it, and the file closed when the writer's
    context is left, whether serialisation succeeded or not.  Handed a file
    object instead of a name, the method writes through it. *)
Definition ElementTree_write (root : val) (filename : val) (encoding : string) : M unit :=
  fp <- match filename with
        | VFile _ => raise Unmodelled
        | _ => open_w filename
        end ;;
  try_finally
    (fun w =>
       match root with
       | VRef l =>
           match xml_tree (length (w_heap w)) (w_heap w) l with
           | Ok x => file_write fp (XMLText encoding x) w
           | Raise e => (file_write fp PartialText ;;; raise e) w
           end
       | _ => (Raise AttributeError, w)
       end)
    (file_close fp).

(** ** The module: class [Reporter] *)

(** [{}], a dict display and [[...]]: fresh objects. *)
Definition new_dict (d : pydict) : M val := l <- alloc (ODict d) ;; ret (VRef l).
Definition new_list (items : list val) : M val := l <- alloc (OList items) ;; ret (VRef l).

(** [Reporter.__init__]; the private name [__output_filename] is mangled. *)
Definition Reporter__init__ (self : val) (output_filename : val) : M unit :=
  if negb (isinstance_str output_filename) then raise TypeError
  else setattr self "_Reporter__output_filename" output_filename.

(** The property [Reporter.output_filename]. *)
Definition output_filename (self : val) : M val :=
  getattr self "_Reporter__output_filename".

(** [cls(arg)]: the three classes share [Reporter.__init__], and none of
    them has an abstract method, so all three can be instantiated. *)
Definition instantiate (c : pyclass) (args : list val) : M val :=
  match args with
  | [arg] =>
      l <- alloc (OInst c []) ;;
      Reporter__init__ (VRef l) arg ;;;
      ret (VRef l)
  | _ => raise TypeError
  end.

(** [f(arg)]: classes are the only callable values of the model. *)
Definition call (f : val) (args : list val) : M val :=
  match f with
  | VClass c => instantiate c args
  | _ => raise TypeError
  end.

(** [raise v]: no value of the model is an exception instance or class. *)
Definition raise_value {A} (v : val) : M A := raise TypeError.

(** [Reporter.generate]. *)
Definition Reporter_generate (self info : val) : M unit :=
  e <- call VNotImplemented [] ;;
  raise_value e.

(** The body of the loop of [ReporterJSON.generate] (lines 100 to 116), for
    one [plugin]; [js_info] is the dict under construction. *)
Definition ReporterJSON_plugin (js_info plugin : val) : M unit :=
  json_plugin <- new_dict [] ;;
  v <- getattr plugin "plugin_name" ;;
  setitem json_plugin "plugin_name" v ;;;
  v <- getattr plugin "current_version" ;;
  setitem json_plugin "current_version" v ;;;
  v <- getattr plugin "latest_version" ;;
  setitem json_plugin "last_version" v ;;;
  v <- getattr plugin "plugin_uri" ;;
  setitem json_plugin "url" v ;;;
  o <- getattr plugin "is_outdated" ;;
  b <- truthy o ;;
  setitem json_plugin "outdated" (VStr (if b then "Yes" else "No")) ;;;
  (* Set CVE *)
  cs <- getattr plugin "cves" ;;
  cs <- iter cs ;;
  v <- new_list cs ;;
  setitem json_plugin "cves" v ;;;
  (* Set exploits *)
  es <- getattr plugin "exploits" ;;
  es <- iter es ;;
  v <- new_list es ;;
  setitem json_plugin "exploits" v ;;;
  l <- getitem js_info "plugins" ;;
  list_append l json_plugin.

(** [ReporterJSON.generate]. *)
Definition ReporterJSON_generate (self info : val) : M unit :=
  js_info <- new_dict [] ;;
  (* Set target *)
  v <- getattr info "target" ;;
  setitem js_info "target" v ;;;
  (* Set time info *)
  t <- getattr info "start_time" ;;
  v <- strftime t "%H-%m-%Y %H:%M:%S" ;;
  setitem js_info "start_time" v ;;;
  t <- getattr info "end_time" ;;
  v <- strftime t "%H-%m-%Y %H:%M:%S" ;;
  setitem js_info "end_time" v ;;;
  (* WordPress info *)
  wp <- getattr info "wordpress_info" ;;
  cur <- getattr wp "current_version" ;;
  wp <- getattr info "wordpress_info" ;;
  last <- getattr wp "latest_version" ;;
  v <- new_dict [("current_version", cur); ("last_version", last)] ;;
  setitem js_info "wordpress" v ;;;
  (* Plugins info *)
  v <- new_list [] ;;
  setitem js_info "plugins" v ;;;
  ps <- getattr info "plugins" ;;
  items <- iter ps ;;
  for_each items (ReporterJSON_plugin js_info) ;;;
  (* Save to file *)
  name <- output_filename self ;;
  fp <- open_w name ;;
  json_dump js_info fp.

(** The bodies of the two inner loops of [ReporterXML.generate]. *)
Definition ReporterXML_cve (cves cve : val) : M unit :=
  xml_cve <- SubElement cves "cve" ;;
  set_text xml_cve cve.

Definition ReporterXML_exploit (exploits exploit : val) : M unit :=
  xml_exploit <- SubElement exploits "exploits" ;;
  set_text xml_exploit exploit.

(** The body of the outer loop (lines 154 to 175), for one [plugin];
    [plugins] is the element the plugin elements go under. *)
Definition ReporterXML_plugin (plugins plugin : val) : M unit :=
  xml_plugin <- SubElement plugins "plugin" ;;
  v <- getattr plugin "plugin_name" ;;
  set_text xml_plugin v ;;;
  v <- getattr plugin "current_version" ;;
  Element_set xml_plugin "current_version" v ;;;
  v <- getattr plugin "latest_version" ;;
  Element_set xml_plugin "last_version" v ;;;
  v <- getattr plugin "plugin_uri" ;;
  Element_set xml_plugin "url" v ;;;
  o <- getattr plugin "is_outdated" ;;
  b <- truthy o ;;
  Element_set xml_plugin "outdated" (VStr (if b then "Yes" else "No")) ;;;
  (* Set CVE *)
  c <- getattr plugin "cves" ;;
  b <- truthy c ;;
  (if b then
     cves <- SubElement xml_plugin "cves" ;;
     cs <- getattr plugin "cves" ;;
     cs <- iter cs ;;
     for_each cs (ReporterXML_cve cves)
   else ret tt) ;;;
  (* Set exploits *)
  c <- getattr plugin "cves" ;;
  b <- truthy c ;;
  (if b then
     exploits <- SubElement xml_plugin "exploits" ;;
     es <- getattr plugin "exploits" ;;
     es <- iter es ;;
     for_each es (ReporterXML_exploit exploits)
   else ret tt).

(** [ReporterXML.generate]. *)
Definition ReporterXML_generate (self info : val) : M unit :=
  root <- Element "libs" ;;
  (* Set target *)
  target <- SubElement root "target" ;;
  v <- getattr info "target" ;;
  set_text target v ;;;
  (* Set time info *)
  time_start <- SubElement root "start_time" ;;
  t <- getattr info "start_time" ;;
  v <- strftime t "%H-%m-%Y %H:%M:%S" ;;
  set_text time_start v ;;;
  time_end <- SubElement root "end_time" ;;
  t <- getattr info "end_time" ;;
  v <- strftime t "%H-%m-%Y %H:%M:%S" ;;
  set_text time_end v ;;;
  (* WordPress info *)
  wordpress <- SubElement root "wordpress" ;;
  wp <- getattr info "wordpress_info" ;;
  v <- getattr wp "current_version" ;;
  Element_set wordpress "current_version" v ;;;
  wp <- getattr info "wordpress_info" ;;
  v <- getattr wp "latest_version" ;;
  Element_set wordpress "last_version" v ;;;
  (* Plugins info *)
  plugins <- SubElement root "plugins" ;;
  ps <- getattr info "plugins" ;;
  items <- iter ps ;;
  for_each items (ReporterXML_plugin plugins) ;;;
  (* Save to file *)
  name <- output_filename self ;;
  ElementTree_write root name "UTF-8".

(** [self.generate(info)]: the method of the class of [self]. *)
Definition generate (self info : val) : M unit :=
  p <- deref AttributeError self ;;
  match snd p with
  | OInst Reporter _ => Reporter_generate self info
  | OInst ReporterJSON _ => ReporterJSON_generate self info
  | OInst ReporterXML _ => ReporterXML_generate self info
  | _ => raise AttributeError
  end.

(** The table [dict(xml=ReporterXML, json=ReporterJSON)]. *)
Definition reporters : gmap string val :=
  <["json" := VClass ReporterJSON]> (<["xml" := VClass ReporterXML]> ∅).

(** [get_reporter].  Line 197 can only fail with the [TypeError] of
    [splitext], which the [except KeyError] clause lets through, so it is
    sequenced before the guarded lookup, where [extension] is bound. *)
Definition get_reporter (filename : val) : M val :=
  parts <- splitext filename ;;
  let extension := slice_from (snd parts) 1 in
  try_except
    (match reporters !! extension with
     | Some r => ret r
     | None => raise KeyError
     end)
    (fun e =>
       match e with
       | KeyError =>
           Some (raise (PlecostInvalidReportFormat
                          ("Report format '" +:+ extension +:+ "' not found.")))
       | _ => None
       end).

(** ** The scan result handed to the writers *)

(** Modelled from the spec: the classes of the scan result ([PlecostResults]
    and the objects it holds) are defined outside this module; section 3 of
    the specification gives their attributes and the types of these. *)
Record WordPressInfo := mkWordPressInfo {
  wp_current_version : string;
  wp_latest_version : string
}.

(** Modelled from the spec: a plugin finding ([PluginFinding] in section 3),
    with the attribute names the writers read. *)
Record PluginFinding := mkPluginFinding {
  plugin_name : string;
  current_version : string;
  latest_version : string;
  plugin_uri : string;
  is_outdated : bool;
  cves : list string;
  exploits : list string
}.

(** Modelled from the spec: the scan result ([ScanResult] in section 3). *)
Record ScanResult := mkScanResult {
  target : string;
  start_time : datetime;
  end_time : datetime;
  wordpress_info : WordPressInfo;
  plugins : list PluginFinding
}.

(** Reading a scan result off the store: [read_scan h v = Some info] says
    that [v] refers to an object graph of the shape above, holding [info]. *)
Definition read_str (v : val) : option string :=
  match v with VStr s => Some s | _ => None end.

Definition read_bool (v : val) : option bool :=
  match v with VBool b => Some b | _ => None end.

Definition read_datetime (v : val) : option datetime :=
  match v with VDatetime d => Some d | _ => None end.

Definition read_data (h : list obj) (v : val) : option pydict :=
  match v with
  | VRef l => match h !! l with Some (OData d) => Some d | _ => None end
  | _ => None
  end.

Definition read_list (h : list obj) (v : val) : option (list val) :=
  match v with
  | VRef l => match h !! l with Some (OList items) => Some items | _ => None end
  | _ => None
  end.

Definition read_strings (h : list obj) (v : val) : option (list string) :=
  items ← read_list h v; mapM read_str items.

Definition read_wordpress (h : list obj) (v : val) : option WordPressInfo :=
  d ← read_data h v;
  cur ← dict_get d "current_version" ≫= read_str;
  last ← dict_get d "latest_version" ≫= read_str;
  Some (mkWordPressInfo cur last).

Definition read_plugin (h : list obj) (v : val) : option PluginFinding :=
  d ← read_data h v;
  name ← dict_get d "plugin_name" ≫= read_str;
  cur ← dict_get d "current_version" ≫= read_str;
  last ← dict_get d "latest_version" ≫= read_str;
  uri ← dict_get d "plugin_uri" ≫= read_str;
  out ← dict_get d "is_outdated" ≫= read_bool;
  cs ← dict_get d "cves" ≫= read_strings h;
  es ← dict_get d "exploits" ≫= read_strings h;
  Some (mkPluginFinding name cur last uri out cs es).

Definition read_scan (h : list obj) (v : val) : option ScanResult :=
  d ← read_data h v;
  tgt ← dict_get d "target" ≫= read_str;
  t0 ← dict_get d "start_time" ≫= read_datetime;
  t1 ← dict_get d "end_time" ≫= read_datetime;
  wp ← dict_get d "wordpress_info" ≫= read_wordpress h;
  vs ← dict_get d "plugins" ≫= read_list h;
  ps ← mapM (read_plugin h) vs;
  Some (mkScanResult tgt t0 t1 wp ps).

(** Building the object graph of a scan result, as the scanner would. *)
Definition make_plugin (p : PluginFinding) : M val :=
  cs <- new_list (map VStr (cves p)) ;;
  es <- new_list (map VStr (exploits p)) ;;
  l <- alloc (OData [("plugin_name", VStr (plugin_name p));
                     ("current_version", VStr (current_version p));
                     ("latest_version", VStr (latest_version p));
                     ("plugin_uri", VStr (plugin_uri p));
                     ("is_outdated", VBool (is_outdated p));
                     ("cves", cs);
                     ("exploits", es)]) ;;
  ret (VRef l).

Fixpoint make_plugins (ps : list PluginFinding) : M (list val) :=
  match ps with
  | [] => ret []
  | p :: rest =>
      v <- make_plugin p ;;
      vs <- make_plugins rest ;;
      ret (v :: vs)
  end.

Definition make_scan (info : ScanResult) : M val :=
  wp <- alloc (OData [("current_version", VStr (wp_current_version (wordpress_info info)));
                      ("latest_version", VStr (wp_latest_version (wordpress_info info)))]) ;;
  vs <- make_plugins (plugins info) ;;
  ps <- new_list vs ;;
  l <- alloc (OData [("target", VStr (target info));
                     ("start_time", VDatetime (start_time info));
                     ("end_time", VDatetime (end_time info));
                     ("wordpress_info", VRef wp);
                     ("plugins", ps)]) ;;
  ret (VRef l).

(** ** The documents of the specification *)

Definition yes_no (b : bool) : string := if b then "Yes" else "No".

(** Sections 4.2 and 4.3 of the specification, as trees. *)
Definition json_plugin_doc (p : PluginFinding) : json :=
  JObj [("plugin_name", JStr (plugin_name p));
        ("current_version", JStr (current_version p));
        ("last_version", JStr (latest_version p));
        ("url", JStr (plugin_uri p));
        ("outdated", JStr (yes_no (is_outdated p)));
        ("cves", JArr (map JStr (cves p)));
        ("exploits", JArr (map JStr (exploits p)))].

Definition json_doc (info : ScanResult) : json :=
  JObj [("target", JStr (target info));
        ("start_time", JStr (format_time (start_time info) "%H-%m-%Y %H:%M:%S"));
        ("end_time", JStr (format_time (end_time info) "%H-%m-%Y %H:%M:%S"));
        ("wordpress",
         JObj [("current_version", JStr (wp_current_version (wordpress_info info)));
               ("last_version", JStr (wp_latest_version (wordpress_info info)))]);
        ("plugins", JArr (map json_plugin_doc (plugins info)))].

Definition leaf (tag : string) (text : string) : xml := XNode tag [] (Some text) [].

(** The children of a [plugin] element: nothing when there is no CVE,
    otherwise a [cves] block and an [exploits] block. *)
Definition xml_plugin_children (p : PluginFinding) : list xml :=
  match cves p with
  | [] => []
  | _ :: _ =>
      [XNode "cves" [] None (map (leaf "cve") (cves p));
       XNode "exploits" [] None (map (leaf "exploits") (exploits p))]
  end.

Definition xml_plugin_doc (p : PluginFinding) : xml :=
  XNode "plugin"
        [("current_version", current_version p);
         ("last_version", latest_version p);
         ("url", plugin_uri p);
         ("outdated", yes_no (is_outdated p))]
        (Some (plugin_name p))
        (xml_plugin_children p).

Definition xml_doc (info : ScanResult) : xml :=
  XNode "libs" [] None
        [leaf "target" (target info);
         leaf "start_time" (format_time (start_time info) "%H-%m-%Y %H:%M:%S");
         leaf "end_time" (format_time (end_time info) "%H-%m-%Y %H:%M:%S");
         XNode "wordpress"
               [("current_version", wp_current_version (wordpress_info info));
                ("last_version", wp_latest_version (wordpress_info info))]
               None [];
         XNode "plugins" [] None (map xml_plugin_doc (plugins info))].

(** Sample data. *)
Definition akismet : PluginFinding :=
  mkPluginFinding "akismet" "3.1" "3.1" "http://x/akismet" false [] [].

Definition slider : PluginFinding :=
  mkPluginFinding "slider" "1.0" "2.0" "http://x/slider" true
                  ["CVE-2020-1"; "CVE-2020-2"] ["exploit-A"].

Definition sample_scan : ScanResult :=
  mkScanResult "http://example.com"
               (mkDatetime 2015 3 7 14 5 9) (mkDatetime 2015 3 7 14 6 30)
               (mkWordPressInfo "4.1" "4.7.3")
               [akismet; slider].

Definition empty_fs : filesystem := mkFS ∅ ∅ [].
Definition empty_world : world := mkWorld [] empty_fs.

(** ** Extensions, as a specification *)

(** [contains c s]: the character [c] occurs in [s]; [only c s]: [s] is made
    of [c] alone. *)
Fixpoint contains (c : ascii) (s : string) : bool :=
  match s with
  | EmptyString => false
  | String a rest => Ascii.eqb a c || contains c rest
  end.

Fixpoint only (c : ascii) (s : string) : bool :=
  match s with
  | EmptyString => true
  | String a rest => Ascii.eqb a c && only c rest
  end.

(** A directory prefix: empty, or ending in the separator. *)
Definition ends_dir (dir : string) : Prop :=
  dir = EmptyString \/ exists d, dir = d +:+ "/".

(** [f] has the extension [e] in the sense of [os.path.splitext]: [f] is
    [dir ++ name ++ "." ++ e] where [name], the part of the last path
    component before its last dot, has a character other than a dot. *)
Definition has_extension (f e : string) : Prop :=
  exists dir name,
    f = dir +:+ name +:+ "." +:+ e /\ ends_dir dir /\
    contains "/" name = false /\ only "." name = false /\
    contains "." e = false /\ contains "/" e = false.

(** The extension in the words of the specification: the substring after
    the last dot, if there is a dot. *)
Definition spec_extension (f : string) : option string :=
  if 0 <=? rfind f "." then Some (slice_from f (rfind f "." + 1)) else None.

(** ** Where the writers find and put things in the store *)

(** The object at [l] is a plugin finding holding [p]. *)
Definition plugin_at (h : list obj) (l : loc) (p : PluginFinding) : Prop :=
  exists d lc le,
    h !! l = Some (OData d) /\
    dict_get d "plugin_name" = Some (VStr (plugin_name p)) /\
    dict_get d "current_version" = Some (VStr (current_version p)) /\
    dict_get d "latest_version" = Some (VStr (latest_version p)) /\
    dict_get d "plugin_uri" = Some (VStr (plugin_uri p)) /\
    dict_get d "is_outdated" = Some (VBool (is_outdated p)) /\
    dict_get d "cves" = Some (VRef lc) /\
    h !! lc = Some (OList (map VStr (cves p))) /\
    dict_get d "exploits" = Some (VRef le) /\
    h !! le = Some (OList (map VStr (exploits p))).

(** The three objects [ReporterJSON.generate] allocates for a plugin, the
    first of them at location [b]. *)
Definition json_block (b : nat) (p : PluginFinding) : list obj :=
  [ODict [("plugin_name", VStr (plugin_name p));
          ("current_version", VStr (current_version p));
          ("last_version", VStr (latest_version p));
          ("url", VStr (plugin_uri p));
          ("outdated", VStr (yes_no (is_outdated p)));
          ("cves", VRef (b + 1)%nat);
          ("exploits", VRef (b + 2)%nat)];
   OList (map VStr (cves p));
   OList (map VStr (exploits p))].

Fixpoint json_blocks (b : nat) (ps : list PluginFinding) : list obj :=
  match ps with
  | [] => []
  | p :: rest => json_block b p ++ json_blocks (b + 3)%nat rest
  end.

Fixpoint json_refs (b : nat) (ps : list PluginFinding) : list val :=
  match ps with
  | [] => []
  | _ :: rest => VRef b :: json_refs (b + 3)%nat rest
  end.

(** The items of a list object are plugin findings holding [ps]. *)
Definition plugins_at (h : list obj) (items : list val) (ps : list PluginFinding) : Prop :=
  Forall2 (fun v p => exists l, v = VRef l /\ plugin_at h l p) items ps.

(** The object at [l] is a scan result holding [info]. *)
Definition scan_at (h : list obj) (l : loc) (info : ScanResult) : Prop :=
  exists d lw dw lp items,
    h !! l = Some (OData d) /\
    dict_get d "target" = Some (VStr (target info)) /\
    dict_get d "start_time" = Some (VDatetime (start_time info)) /\
    dict_get d "end_time" = Some (VDatetime (end_time info)) /\
    dict_get d "wordpress_info" = Some (VRef lw) /\
    h !! lw = Some (OData dw) /\
    dict_get dw "current_version" = Some (VStr (wp_current_version (wordpress_info info))) /\
    dict_get dw "latest_version" = Some (VStr (wp_latest_version (wordpress_info info))) /\
    dict_get d "plugins" = Some (VRef lp) /\
    h !! lp = Some (OList items) /\
    plugins_at h items (plugins info).

(** The object at [l] is a reporter of class [c] for the file [name]. *)
Definition reporter_at (h : list obj) (l : loc) (c : pyclass) (name : string) : Prop :=
  exists d,
    h !! l = Some (OInst c d) /\
    dict_get d "_Reporter__output_filename" = Some (VStr name).

(** The store after [ReporterJSON.generate] ran on a store [h] holding
    [info]: the dict [js_info], the dict for WordPress, the list of plugins
    and, for each plugin, its three objects. *)
Definition json_heap (h : list obj) (info : ScanResult) : list obj :=
  h ++ ODict [("target", VStr (target info));
              ("start_time", VStr (format_time (start_time info) "%H-%m-%Y %H:%M:%S"));
              ("end_time", VStr (format_time (end_time info) "%H-%m-%Y %H:%M:%S"));
              ("wordpress", VRef (length h + 1)%nat);
              ("plugins", VRef (length h + 2)%nat)]
    :: ODict [("current_version", VStr (wp_current_version (wordpress_info info)));
              ("last_version", VStr (wp_latest_version (wordpress_info info)))]
    :: OList (json_refs (length h + 3)%nat (plugins info))
    :: json_blocks (length h + 3)%nat (plugins info).

(** The file system after a file object for [name] was opened for writing,
    [data] written through it, and the file object left in state [closed]. *)
Definition written (fs : filesystem) (name : string) (data : payload) (closed : bool)
  : filesystem :=
  mkFS (fs_denied fs)
       (<[name := [data]]> (fs_files fs))
       (fs_handles fs ++ [mkHandle name closed]).

(** The objects [ReporterXML.generate] allocates for a plugin, the first of
    them at location [b]: the [plugin] element and, when there are CVEs, the
    [cves] element, its children, the [exploits] element and its children. *)
Definition leaf_obj (tag : string) (text : string) : obj :=
  OElement tag [] (VStr text) [].

Definition xml_block (b : nat) (p : PluginFinding) : list obj :=
  let attrs := [("current_version", VStr (current_version p));
                ("last_version", VStr (latest_version p));
                ("url", VStr (plugin_uri p));
                ("outdated", VStr (yes_no (is_outdated p)))] in
  match cves p with
  | [] => [OElement "plugin" attrs (VStr (plugin_name p)) []]
  | _ :: _ =>
      OElement "plugin" attrs (VStr (plugin_name p))
               [b + 1; b + 2 + length (cves p)]%nat
      :: OElement "cves" [] VNone (seq (b + 2) (length (cves p)))
      :: map (leaf_obj "cve") (cves p)
      ++ OElement "exploits" [] VNone
                  (seq (b + 3 + length (cves p)) (length (exploits p)))
      :: map (leaf_obj "exploits") (exploits p)
  end.

Definition xml_block_size (p : PluginFinding) : nat :=
  match cves p with
  | [] => 1
  | _ :: _ => 3 + length (cves p) + length (exploits p)
  end.

Fixpoint xml_blocks (b : nat) (ps : list PluginFinding) : list obj :=
  match ps with
  | [] => []
  | p :: rest => xml_block b p ++ xml_blocks (b + xml_block_size p)%nat rest
  end.

Fixpoint xml_locs (b : nat) (ps : list PluginFinding) : list loc :=
  match ps with
  | [] => []
  | p :: rest => b :: xml_locs (b + xml_block_size p)%nat rest
  end.

(** The store after [ReporterXML.generate] ran on a store [h] holding
    [info]. *)
Definition xml_heap (h : list obj) (info : ScanResult) : list obj :=
  h ++ OElement "libs" [] VNone
                [length h + 1; length h + 2; length h + 3; length h + 4; length h + 5]%nat
    :: leaf_obj "target" (target info)
    :: leaf_obj "start_time" (format_time (start_time info) "%H-%m-%Y %H:%M:%S")
    :: leaf_obj "end_time" (format_time (end_time info) "%H-%m-%Y %H:%M:%S")
    :: OElement "wordpress"
                [("current_version", VStr (wp_current_version (wordpress_info info)));
                 ("last_version", VStr (wp_latest_version (wordpress_info info)))]
                VNone []
    :: OElement "plugins" [] VNone (xml_locs (length h + 6)%nat (plugins info))
    :: xml_blocks (length h + 6)%nat (plugins info).

(** ** Reading documents back *)

Fixpoint assoc {A} (k : string) (l : list (string * A)) : option A :=
  match l with
  | [] => None
  | (k', v) :: rest => if String.eqb k' k then Some v else assoc k rest
  end.

Definition json_get (k : string) (j : json) : option json :=
  match j with
  | JObj members => assoc k members
  | _ => None
  end.

Definition json_keys (j : json) : list string :=
  match j with
  | JObj members => map fst members
  | _ => []
  end.

Definition json_string (j : json) : option string :=
  match j with JStr s => Some s | _ => None end.

Definition xml_tag (x : xml) : string := match x with XNode t _ _ _ => t end.
Definition xml_attrs (x : xml) : list (string * string) := match x with XNode _ a _ _ => a end.
Definition xml_text_of (x : xml) : option string := match x with XNode _ _ t _ => t end.
Definition xml_children (x : xml) : list xml := match x with XNode _ _ _ c => c end.

(** The first child of [x] with the given tag. *)
Definition xml_child (tag : string) (x : xml) : option xml :=
  find (fun c => String.eqb (xml_tag c) tag) (xml_children x).

(** The plugin names of a written report, in document order. *)
Definition json_plugin_names (j : json) : list string :=
  match json_get "plugins" j with
  | Some (JArr items) => omap (fun x => json_get "plugin_name" x ≫= json_string) items
  | _ => []
  end.

Definition xml_plugin_names (x : xml) : list string :=
  match xml_child "plugins" x with
  | Some ps => omap xml_text_of (xml_children ps)
  | None => []
  end.

Definition plugin_names (d : payload) : list string :=
  match d with
  | JSONText j => json_plugin_names j
  | XMLText _ x => xml_plugin_names x
  | PartialText => []
  end.

(** A finding with a CVE and no exploit, and a finding with an exploit and
    no CVE. *)
Definition cve_only : PluginFinding :=
  mkPluginFinding "forms" "1.2" "1.3" "http://x/forms" true ["CVE-2020-1"] [].

Definition exploit_only : PluginFinding :=
  mkPluginFinding "gallery" "2.0" "2.0" "http://x/gallery" false [] ["exploit-A"].

Definition scan_of (ps : list PluginFinding) : ScanResult :=
  mkScanResult "http://example.com"
               (mkDatetime 2015 3 7 14 5 9) (mkDatetime 2015 3 7 14 6 30)
               (mkWordPressInfo "4.1" "4.7.3") ps.

(** A world holding a scan result and a reporter of class [c] for [name]:
    the scan result is at [fst], the reporter at [snd]. *)
Definition setup (c : pyclass) (name : string) (info : ScanResult)
  : result (val * val) * world :=
  (i <- make_scan info ;;
   r <- call (VClass c) [VStr name] ;;
   ret (i, r)) empty_world.

(** The same, followed by [reporter.generate(info)]. *)
Definition session (c : pyclass) (name : string) (info : ScanResult)
  : result unit * world :=
  (i <- make_scan info ;;
   r <- call (VClass c) [VStr name] ;;
   generate r i) empty_world.

(** A top-level text field of a written report. *)
Definition text_field (k : string) (d : payload) : option string :=
  match d with
  | JSONText j => json_get k j ≫= json_string
  | XMLText _ x => xml_child k x ≫= xml_text_of
  | PartialText => None
  end.

(** The worlds of the sample sessions, before [generate] is called: the
    scan result is object 8, the reporter object 9. *)
Definition json_world : world := snd (setup ReporterJSON "out.json" sample_scan).
Definition xml_world : world := snd (setup ReporterXML "out.xml" sample_scan).

Definition gated_world : world :=
  snd (setup ReporterXML "out.xml" (scan_of [cve_only; exploit_only])).

(** ** Devices for further properties *)


(** The document a writer of class [c] produces for a scan result. *)
Definition report_of (c : pyclass) (info : ScanResult) : payload :=
  match c with
  | ReporterXML => XMLText "UTF-8" (xml_doc info)
  | _ => JSONText (json_doc info)
  end.

(** The file a session leaves under [name]. *)
Definition session_file (c : pyclass) (name : string) (info : ScanResult)
  : option (list payload) :=
  fs_files (w_fs (snd (session c name info))) !! name.

(** Two findings that differ at most in their exploits, and in these only
    if they have no CVE. *)
Definition same_but_hidden_exploits (p q : PluginFinding) : Prop :=
  plugin_name p = plugin_name q /\
  current_version p = current_version q /\
  latest_version p = latest_version q /\
  plugin_uri p = plugin_uri q /\
  is_outdated p = is_outdated q /\
  cves p = cves q /\
  (cves p <> [] -> exploits p = exploits q).

(** A scan result with other days of the month in its two timestamps. *)
Definition set_day (day : Z) (d : datetime) : datetime :=
  mkDatetime (dt_year d) (dt_month d) day (dt_hour d) (dt_minute d) (dt_second d).

Definition with_days (day0 day1 : Z) (info : ScanResult) : ScanResult :=
  mkScanResult (target info)
               (set_day day0 (start_time info)) (set_day day1 (end_time info))
               (wordpress_info info) (plugins info).

(** The object at [l] is a scan result holding [info], except that the
    latest WordPress version is not known: the attribute [latest_version]
    of its [wordpress_info] is [None]. *)
Definition scan_at_unknown_latest (h : list obj) (l : loc) (info : ScanResult) : Prop :=
  exists d lw dw lp items,
    h !! l = Some (OData d) /\
    dict_get d "target" = Some (VStr (target info)) /\
    dict_get d "start_time" = Some (VDatetime (start_time info)) /\
    dict_get d "end_time" = Some (VDatetime (end_time info)) /\
    dict_get d "wordpress_info" = Some (VRef lw) /\
    h !! lw = Some (OData dw) /\
    dict_get dw "current_version" = Some (VStr (wp_current_version (wordpress_info info))) /\
    dict_get dw "latest_version" = Some VNone /\
    dict_get d "plugins" = Some (VRef lp) /\
    h !! lp = Some (OList items) /\
    plugins_at h items (plugins info).

(** The JSON document for such a scan result: [last_version] is [null]. *)
Definition json_doc_unknown_latest (info : ScanResult) : json :=
  JObj [("target", JStr (target info));
        ("start_time", JStr (format_time (start_time info) "%H-%m-%Y %H:%M:%S"));
        ("end_time", JStr (format_time (end_time info) "%H-%m-%Y %H:%M:%S"));
        ("wordpress",
         JObj [("current_version", JStr (wp_current_version (wordpress_info info)));
               ("last_version", JNull)]);
        ("plugins", JArr (map json_plugin_doc (plugins info)))].

(** A store with the sample scan result, its latest WordPress version
    unknown, at 8, a JSON reporter at 9 and an XML reporter at 10. *)
Definition unknown_latest_world : world :=
  snd ((wp <- alloc (OData [("current_version", VStr "4.1"); ("latest_version", VNone)]) ;;
        vs <- make_plugins (plugins sample_scan) ;;
        ps <- new_list vs ;;
        alloc (OData [("target", VStr (target sample_scan));
                      ("start_time", VDatetime (start_time sample_scan));
                      ("end_time", VDatetime (end_time sample_scan));
                      ("wordpress_info", VRef wp);
                      ("plugins", ps)]) ;;;
        call (VClass ReporterJSON) [VStr "out.json"] ;;;
        call (VClass ReporterXML) [VStr "out.xml"]) empty_world).

(** The plugin entries of a JSON report and the plugin elements of an XML
    report. *)
Definition json_plugin_items (d : payload) : list json :=
  match d with
  | JSONText j => match json_get "plugins" j with Some (JArr items) => items | _ => [] end
  | _ => []
  end.

Definition xml_plugin_items (d : payload) : list xml :=
  match d with
  | XMLText _ x => match xml_child "plugins" x with Some ps => xml_children ps | None => [] end
  | _ => []
  end.

(** * Properties *)

(** ** Sample runs of the library models *)

Example splitext_report_json :
  _splitext "report.json" "/"%char None "."%char = ("report", ".json").
Proof. reflexivity. Qed.

Example splitext_hidden :
  _splitext "dir.d/.bashrc" "/"%char None "."%char = ("dir.d/.bashrc", EmptyString).
Proof. reflexivity. Qed.

Example format_time_sample :
  format_time (mkDatetime 2015 3 7 14 5 9) "%H-%m-%Y %H:%M:%S" = "14-03-2015 14:05:09".
Proof. reflexivity. Qed.

(** Years below 1000 are not padded. *)
Example format_time_year_999 :
  format_time (mkDatetime 999 12 31 23 59 58) "%H-%m-%Y %H:%M:%S" = "23-12-999 23:59:58".
Proof. reflexivity. Qed.

Example format_time_year_1 :
  format_time (mkDatetime 1 1 1 0 0 0) "%H-%m-%Y %H:%M:%S" = "00-01-1 00:00:00".
Proof. reflexivity. Qed.

(** From the year 1000 on the year takes four digits. *)
Lemma year_text_four_digits y :
  (1000 <= y)%Z -> year_text y = zero_pad 4 y.
Proof.
  intros Hy. unfold year_text.
  destruct (Z.ltb_spec y 10); [lia|].
  destruct (Z.ltb_spec y 100); [lia|].
  destruct (Z.ltb_spec y 1000); [lia | reflexivity].
Qed.

(** ** Strings and [splitext] *)

Lemma app_cons x (a b : string) : String x a +:+ b = String x (a +:+ b).
Proof. reflexivity. Qed.

Lemma app_empty (b : string) : EmptyString +:+ b = b.
Proof. reflexivity. Qed.

Lemma str_len_cons a s : str_len (String a s) = str_len s + 1.
Proof. unfold str_len. simpl String.length. lia. Qed.

Lemma str_len_nonneg s : 0 <= str_len s.
Proof. unfold str_len. lia. Qed.

Lemma str_len_app a b : str_len (a +:+ b) = str_len a + str_len b.
Proof.
  induction a as [|x a IH].
  - rewrite app_empty. unfold str_len at 2. simpl. lia.
  - rewrite app_cons, !str_len_cons, IH. lia.
Qed.

Lemma rfind_range s c : -1 <= rfind s c < str_len s.
Proof.
  induction s as [|a s IH]; simpl.
  - unfold str_len; simpl; lia.
  - rewrite str_len_cons.
    destruct (Z.leb_spec 0 (rfind s c)); [lia|].
    destruct (Ascii.eqb a c); pose proof (str_len_nonneg s); lia.
Qed.

Lemma rfind_contains s c : contains c s = (0 <=? rfind s c).
Proof.
  induction s as [|a s IH]; simpl; [reflexivity|].
  rewrite IH.
  destruct (Z.leb_spec 0 (rfind s c)) as [H|H].
  - rewrite orb_true_r. symmetry. apply Z.leb_le. lia.
  - rewrite orb_false_r. destruct (Ascii.eqb a c); reflexivity.
Qed.

Lemma rfind_app a b c :
  rfind (a +:+ b) c = if contains c b then str_len a + rfind b c else rfind a c.
Proof.
  induction a as [|x a IH].
  - rewrite app_empty, rfind_contains.
    destruct (Z.leb_spec 0 (rfind b c)); [unfold str_len; simpl; lia|].
    pose proof (rfind_range b c). simpl. lia.
  - rewrite app_cons. simpl. rewrite IH, str_len_cons.
    destruct (contains c b) eqn:Hc; [|reflexivity].
    rewrite rfind_contains in Hc. apply Z.leb_le in Hc.
    pose proof (str_len_nonneg a).
    destruct (Z.leb_spec 0 (str_len a + rfind b c)); lia.
Qed.

Lemma app_assoc_str (a b c : string) : (a +:+ b) +:+ c = a +:+ (b +:+ c).
Proof. induction a as [|x a IH]; [reflexivity|]. rewrite !app_cons, IH. reflexivity. Qed.

Lemma substring_0_0 s : String.substring 0 0 s = EmptyString.
Proof. destruct s; reflexivity. Qed.

Lemma substring_prefix a b : String.substring 0 (String.length a) (a +:+ b) = a.
Proof.
  induction a as [|x a IH].
  - apply substring_0_0.
  - rewrite app_cons. simpl. rewrite IH. reflexivity.
Qed.

Lemma substring_whole s : String.substring 0 (String.length s) s = s.
Proof. induction s as [|x s IH]; simpl; [reflexivity|]. rewrite IH. reflexivity. Qed.

Lemma substring_suffix a b n :
  String.substring (String.length a) n (a +:+ b) = String.substring 0 n b.
Proof.
  induction a as [|x a IH]; [reflexivity|].
  rewrite app_cons. simpl. apply IH.
Qed.

Lemma length_app_str a b : String.length (a +:+ b) = (String.length a + String.length b)%nat.
Proof. induction a as [|x a IH]; [reflexivity|]. rewrite app_cons. simpl. rewrite IH. reflexivity. Qed.

Lemma slice_bound_inside s i : 0 <= i <= str_len s -> slice_bound s i = Z.to_nat i.
Proof.
  intros H. unfold slice_bound.
  destruct (Z.ltb_spec i 0); [lia|]. f_equal. lia.
Qed.

Lemma slice_bound_prefix a b : slice_bound (a +:+ b) (str_len a) = String.length a.
Proof.
  rewrite slice_bound_inside.
  - unfold str_len. apply Nat2Z.id.
  - rewrite str_len_app. pose proof (str_len_nonneg a). pose proof (str_len_nonneg b). lia.
Qed.

Lemma slice_to_app a b : slice_to (a +:+ b) (str_len a) = a.
Proof. unfold slice_to. rewrite slice_bound_prefix. apply substring_prefix. Qed.

Lemma slice_from_app a b : slice_from (a +:+ b) (str_len a) = b.
Proof.
  unfold slice_from. rewrite slice_bound_prefix, substring_suffix, length_app_str.
  replace (String.length a + String.length b - String.length a)%nat
    with (String.length b) by lia.
  apply substring_whole.
Qed.

Lemma slice_to_0 s : slice_to s 0 = EmptyString.
Proof.
  unfold slice_to. rewrite slice_bound_inside by (pose proof (str_len_nonneg s); lia).
  apply substring_0_0.
Qed.

Lemma slice_char a c b :
  slice (a +:+ String c b) (str_len a) (str_len a + 1) = String c EmptyString.
Proof.
  unfold slice. rewrite slice_bound_prefix.
  replace (str_len a + 1) with (str_len (a +:+ String c EmptyString))
    by (rewrite str_len_app; reflexivity).
  replace (a +:+ String c b) with ((a +:+ String c EmptyString) +:+ b) at 1
    by (rewrite app_assoc_str; reflexivity).
  rewrite slice_bound_prefix, length_app_str. simpl String.length.
  replace (String.length a + 1 - String.length a)%nat with 1%nat by lia.
  rewrite substring_suffix. simpl. rewrite substring_0_0. reflexivity.
Qed.

Lemma slice_from_1 c e : slice_from (String c e) 1 = e.
Proof.
  change (String c e) with (String c EmptyString +:+ e).
  apply (slice_from_app (String c EmptyString) e).
Qed.

Lemma splitext_loop_spec y : forall x z e,
  splitext_loop (String.length y) (x +:+ y +:+ z) (str_len x) e = negb (only e y).
Proof.
  induction y as [|c y IH]; intros x z e; [reflexivity|].
  rewrite app_cons. simpl splitext_loop. rewrite slice_char.
  simpl. destruct (Ascii.eqb_spec c e) as [->|Hne]; simpl.
  - replace (str_len x + 1) with (str_len (x +:+ String e EmptyString))
      by (rewrite str_len_app; reflexivity).
    replace (x +:+ String e (y +:+ z)) with ((x +:+ String e EmptyString) +:+ y +:+ z)
      by (rewrite app_assoc_str; reflexivity).
    apply IH.
  - reflexivity.
Qed.

Lemma contains_split c s :
  contains c s = true ->
  exists a b, s = a +:+ String c b /\ contains c b = false.
Proof.
  induction s as [|x s IH]; simpl; [discriminate|].
  destruct (contains c s) eqn:Hs.
  - intros _. destruct (IH eq_refl) as (a & b & -> & Hb).
    exists (String x a), b. split; [reflexivity | exact Hb].
  - rewrite orb_false_r. intros Hx. apply Ascii.eqb_eq in Hx. subst x.
    exists EmptyString, s. split; [reflexivity | exact Hs].
Qed.

Lemma contains_app c a b : contains c (a +:+ b) = contains c a || contains c b.
Proof.
  induction a as [|x a IH]; [reflexivity|].
  rewrite app_cons. simpl. rewrite IH. apply orb_assoc.
Qed.

Lemma rfind_last a c b :
  contains c b = false -> rfind (a +:+ String c b) c = str_len a.
Proof.
  intros Hb. rewrite rfind_app. simpl contains. rewrite Ascii.eqb_refl. simpl.
  rewrite rfind_contains in Hb. apply Z.leb_gt in Hb.
  destruct (Z.leb_spec 0 (rfind b c)); [lia|]. rewrite Ascii.eqb_refl. lia.
Qed.

Lemma rfind_absent s c : contains c s = false -> rfind s c = -1.
Proof.
  rewrite rfind_contains. intros H. apply Z.leb_gt in H.
  pose proof (rfind_range s c). lia.
Qed.

Lemma rfind_ends_dir dir name :
  ends_dir dir -> contains "/" name = false ->
  rfind (dir +:+ name) "/" + 1 = str_len dir.
Proof.
  intros [-> | [d ->]] Hn.
  - rewrite app_empty, rfind_absent by exact Hn. reflexivity.
  - rewrite app_assoc_str. change ("/" +:+ name) with (String "/"%char name).
    rewrite rfind_last by exact Hn. rewrite str_len_app. reflexivity.
Qed.

Lemma splitext_has_extension f e :
  has_extension f e ->
  exists root, _splitext f "/" None "." = (root, "." +:+ e) /\ f = root +:+ "." +:+ e.
Proof.
  intros (dir & name & -> & Hd & Hn & Hdots & He1 & He2).
  exists (dir +:+ name). split; [|rewrite app_assoc_str; reflexivity].
  unfold _splitext.
  assert (Hdot : rfind (dir +:+ name +:+ "." +:+ e) "." = str_len (dir +:+ name)).
  { rewrite <- app_assoc_str. apply (rfind_last (dir +:+ name) "." e He1). }
  assert (Hsep : rfind (dir +:+ name +:+ "." +:+ e) "/" + 1 = str_len dir).
  { rewrite <- app_assoc_str, rfind_app.
    change ("." +:+ e) with (String "."%char e). simpl contains. rewrite He2. simpl.
    apply rfind_ends_dir; assumption. }
  rewrite Hdot. rewrite Hsep.
  replace (str_len (dir +:+ name) - str_len dir) with (str_len name)
    by (rewrite str_len_app; lia).
  replace (Z.to_nat (str_len name)) with (String.length name)
    by (unfold str_len; lia).
  rewrite splitext_loop_spec, Hdots.
  replace (rfind (dir +:+ name +:+ "." +:+ e) "/" <? str_len (dir +:+ name)) with true.
  - simpl. rewrite <- app_assoc_str, slice_to_app, slice_from_app. reflexivity.
  - symmetry. apply Z.ltb_lt. rewrite str_len_app. pose proof (str_len_nonneg name). lia.
Qed.

Lemma splitext_inv f root ext :
  _splitext f "/" None "." = (root, ext) ->
  (root = f /\ ext = EmptyString) \/
  (exists e, ext = "." +:+ e /\ has_extension f e).
Proof.
  unfold _splitext.
  destruct (rfind f "/" <? rfind f ".") eqn:Hlt; simpl;
    [| intros [= <- <-]; left; split; [reflexivity | apply slice_to_0] ].
  apply Z.ltb_lt in Hlt.
  destruct (splitext_loop _ _ _ _) eqn:Hloop;
    [| intros [= <- <-]; left; split; [reflexivity | apply slice_to_0] ].
  intros [= <- <-]. right.
  assert (Hc : contains "." f = true).
  { rewrite rfind_contains. apply Z.leb_le. pose proof (rfind_range f "/"). lia. }
  destruct (contains_split _ _ Hc) as (a & e & -> & He).
  rewrite (rfind_last a "." e He) in *.
  change (String "."%char e) with ("." +:+ e) in *.
  rewrite slice_from_app. exists e. split; [reflexivity|].
  rewrite rfind_app in Hlt, Hloop.
  destruct (contains "/" ("." +:+ e)) eqn:Hse.
  { rewrite rfind_contains in Hse. apply Z.leb_le in Hse. lia. }
  destruct (contains "/" a) eqn:Hsa.
  - destruct (contains_split _ _ Hsa) as (d & name & -> & Hn).
    rewrite (rfind_last d "/" name Hn) in Hloop.
    exists (d +:+ "/"), name.
    replace (str_len (d +:+ String "/"%char name) - (str_len d + 1)) with (str_len name) in Hloop
      by (rewrite str_len_app, str_len_cons; lia).
    replace (str_len d + 1) with (str_len (d +:+ "/")) in Hloop
      by (rewrite str_len_app; reflexivity).
    replace ((d +:+ String "/"%char name) +:+ "." +:+ e)
      with ((d +:+ "/") +:+ name +:+ "." +:+ e) in Hloop
      by (rewrite !app_assoc_str; reflexivity).
    replace (Z.to_nat (str_len name)) with (String.length name) in Hloop
      by (unfold str_len; lia).
    rewrite splitext_loop_spec in Hloop.
    repeat split.
    + rewrite !app_assoc_str. reflexivity.
    + right. exists d. reflexivity.
    + exact Hn.
    + destruct (only "." name); [discriminate | reflexivity].
    + exact He.
    + exact Hse.
  - rewrite (rfind_absent a "/" Hsa) in Hloop.
    exists EmptyString, a.
    replace (str_len a - (-1 + 1)) with (str_len a) in Hloop by lia.
    change (-1 + 1) with (str_len EmptyString) in Hloop.
    change (a +:+ "." +:+ e) with (EmptyString +:+ a +:+ "." +:+ e) in Hloop.
    replace (Z.to_nat (str_len a)) with (String.length a) in Hloop
      by (unfold str_len; lia).
    rewrite splitext_loop_spec in Hloop.
    repeat split.
    + left. reflexivity.
    + exact Hsa.
    + destruct (only "." a); [discriminate | reflexivity].
    + exact He.
    + exact Hse.
Qed.

(** ** [get_reporter] *)

Lemma reporters_lookup e r :
  reporters !! e = Some r ->
  (e = "json" /\ r = VClass ReporterJSON) \/ (e = "xml" /\ r = VClass ReporterXML).
Proof.
  unfold reporters. intros H.
  apply lookup_insert_Some in H as [[<- <-] | [_ H]]; [left; done|].
  apply lookup_insert_Some in H as [[<- <-] | [_ H]]; [right; done|].
  rewrite lookup_empty in H. discriminate.
Qed.

Lemma get_reporter_unfold f w :
  get_reporter (VStr f) w =
  let extension := slice_from (snd (_splitext f "/" None ".")) 1 in
  match reporters !! extension with
  | Some r => (Ok r, w)
  | None => (Raise (PlecostInvalidReportFormat
                      ("Report format '" +:+ extension +:+ "' not found.")), w)
  end.
Proof.
  unfold get_reporter, splitext, bind, ret, try_except. simpl.
  destruct (reporters !! _); reflexivity.
Qed.

Lemma get_reporter_has_extension f e w :
  has_extension f e ->
  get_reporter (VStr f) w =
  match reporters !! e with
  | Some r => (Ok r, w)
  | None => (Raise (PlecostInvalidReportFormat
                      ("Report format '" +:+ e +:+ "' not found.")), w)
  end.
Proof.
  intros H. rewrite get_reporter_unfold.
  destruct (splitext_has_extension f e H) as (root & -> & _).
  simpl snd. change ("." +:+ e) with (String "."%char e).
  rewrite slice_from_1. reflexivity.
Qed.

(** C1, as the specification words it, fails on a dot file: the substring
    after the last dot of [.json] is [json], yet [splitext] finds no
    extension there and the lookup fails. *)
Lemma get_reporter_dotfile_rejected :
  spec_extension ".json" = Some "json" /\
  get_reporter (VStr ".json") empty_world =
    (Raise (PlecostInvalidReportFormat "Report format '' not found."), empty_world).
Proof. split; reflexivity. Qed.

(** C1, amended: a file name with the [splitext] extension [json] selects
    the class [ReporterJSON], one with [xml] the class [ReporterXML], every
    other string raises [PlecostInvalidReportFormat]; in all cases the world
    is left as it was, so no instance is made. *)
Theorem get_reporter_by_extension (f : string) (w : world) :
  (has_extension f "json" -> get_reporter (VStr f) w = (Ok (VClass ReporterJSON), w)) /\
  (has_extension f "xml" -> get_reporter (VStr f) w = (Ok (VClass ReporterXML), w)) /\
  (~ has_extension f "json" -> ~ has_extension f "xml" ->
   exists msg, get_reporter (VStr f) w = (Raise (PlecostInvalidReportFormat msg), w)).
Proof.
  split; [|split].
  - intros H. rewrite (get_reporter_has_extension f "json" w H). reflexivity.
  - intros H. rewrite (get_reporter_has_extension f "xml" w H). reflexivity.
  - intros Hj Hx. rewrite get_reporter_unfold. cbv zeta.
    destruct (_splitext f "/" None ".") as [root ext] eqn:Hs. simpl snd.
    destruct (reporters !! slice_from ext 1) as [r|] eqn:Hr; [|eauto].
    exfalso. apply splitext_inv in Hs as [[_ ->] | (e & -> & He)].
    + apply reporters_lookup in Hr as [[Hr _] | [Hr _]]; discriminate Hr.
    + change ("." +:+ e) with (String "."%char e) in Hr. rewrite slice_from_1 in Hr.
      apply reporters_lookup in Hr as [[-> _] | [-> _]]; tauto.
Qed.

Lemma get_reporter_by_extension_witness :
  get_reporter (VStr "report.json") empty_world = (Ok (VClass ReporterJSON), empty_world) /\
  get_reporter (VStr "out/scan.v2.xml") empty_world = (Ok (VClass ReporterXML), empty_world) /\
  exists msg,
    get_reporter (VStr "report.txt") empty_world =
      (Raise (PlecostInvalidReportFormat msg), empty_world).
Proof.
  split; [|split].
  - apply (proj1 (get_reporter_by_extension "report.json" empty_world)).
    exists EmptyString, "report". repeat split; try reflexivity. left; reflexivity.
  - apply (proj1 (proj2 (get_reporter_by_extension "out/scan.v2.xml" empty_world))).
    exists "out/", "scan.v2". repeat split; try reflexivity. right. exists "out". reflexivity.
  - apply (proj2 (proj2 (get_reporter_by_extension "report.txt" empty_world))).
    + intros H. apply (get_reporter_has_extension _ _ empty_world) in H. discriminate H.
    + intros H. apply (get_reporter_has_extension _ _ empty_world) in H. discriminate H.
Defined.

(** Names the table does not know: another case, no extension, and a value
    that is not a string at all. *)
Example get_reporter_uppercase :
  get_reporter (VStr "report.JSON") empty_world =
    (Raise (PlecostInvalidReportFormat "Report format 'JSON' not found."), empty_world).
Proof. reflexivity. Qed.

Example get_reporter_no_extension :
  get_reporter (VStr "report") empty_world =
    (Raise (PlecostInvalidReportFormat "Report format '' not found."), empty_world).
Proof. reflexivity. Qed.

Example get_reporter_not_a_string :
  get_reporter (VInt 3) empty_world = (Raise TypeError, empty_world).
Proof. reflexivity. Qed.

(** ** Construction and the abstract method *)

Lemma instantiate_str c s w :
  call (VClass c) [VStr s] w =
    (Ok (VRef (length (w_heap w))),
     mkWorld (w_heap w ++ [OInst c [("_Reporter__output_filename", VStr s)]]) (w_fs w)).
Proof.
  unfold call, instantiate, Reporter__init__, setattr, bind, alloc, deref, store, ret.
  simpl. rewrite lookup_app_r by lia. rewrite Nat.sub_diag. simpl.
  rewrite insert_app_r_alt by lia. rewrite Nat.sub_diag. reflexivity.
Qed.

Lemma output_filename_read h fs c s :
  output_filename (VRef (length h))
    (mkWorld (h ++ [OInst c [("_Reporter__output_filename", VStr s)]]) fs) =
  (Ok (VStr s), mkWorld (h ++ [OInst c [("_Reporter__output_filename", VStr s)]]) fs).
Proof.
  unfold output_filename, getattr, bind, deref. simpl.
  rewrite lookup_app_r by lia. rewrite Nat.sub_diag. reflexivity.
Qed.

(** C7: constructing a reporter of any of the three classes from a value
    that is not a string raises [TypeError]; from a string it succeeds, the
    property [output_filename] of the new instance then reads that very
    string. *)
Theorem Reporter_init_checks_filename (c : pyclass) (v : val) (w : world) :
  ((forall s, v <> VStr s) -> fst (call (VClass c) [v] w) = Raise TypeError) /\
  (forall s, v = VStr s ->
     exists self w',
       call (VClass c) [v] w = (Ok self, w') /\
       output_filename self w' = (Ok (VStr s), w')).
Proof.
  split.
  - intros Hv. destruct v; try reflexivity. exfalso. apply (Hv s). reflexivity.
  - intros s ->. eexists _, _. split; [apply instantiate_str|].
    apply output_filename_read.
Qed.

Lemma Reporter_init_checks_filename_witness :
  fst (call (VClass ReporterJSON) [VInt 42] empty_world) = Raise TypeError /\
  exists self w',
    call (VClass ReporterXML) [VStr "out.xml"] empty_world = (Ok self, w') /\
    output_filename self w' = (Ok (VStr "out.xml"), w').
Proof.
  split.
  - apply (proj1 (Reporter_init_checks_filename ReporterJSON (VInt 42) empty_world)).
    intros s H. discriminate H.
  - apply (proj2 (Reporter_init_checks_filename ReporterXML (VStr "out.xml") empty_world)
                 "out.xml").
    reflexivity.
Defined.

(** C10: [generate] of the base class raises [TypeError], the error of
    calling [NotImplemented], which is not callable; so does [generate] on
    an instance of [Reporter] itself, which can be made since the class has
    no abstract method. *)
Theorem Reporter_generate_raises_TypeError (self info : val) (s : string) (w : world) :
  call VNotImplemented [] w = (Raise TypeError, w) /\
  Reporter_generate self info w = (Raise TypeError, w) /\
  exists r w',
    call (VClass Reporter) [VStr s] w = (Ok r, w') /\
    generate r info w' = (Raise TypeError, w').
Proof.
  split; [reflexivity|]. split; [reflexivity|].
  eexists _, _. split; [apply instantiate_str|].
  unfold generate, bind, deref. simpl.
  rewrite lookup_app_r by lia. rewrite Nat.sub_diag. reflexivity.
Qed.

(** ** Running programs step by step *)

Local Open Scope nat_scope.

Lemma bind_ok {A B} (m : M A) (k : A -> M B) w a w' :
  m w = (Ok a, w') -> bind m k w = k a w'.
Proof. intros H. unfold bind. rewrite H. reflexivity. Qed.

Lemma lookup_app_plus {A} (l1 l2 : list A) (i : nat) :
  (l1 ++ l2) !! (length l1 + i)%nat = l2 !! i.
Proof. rewrite lookup_app_r by lia. f_equal. lia. Qed.

Section Steps.
Variables (H : list obj) (fs : filesystem).

(** Allocation, in a store [H ++ t] whose tail [t] holds the objects made
    so far. *)
Lemma new_dict_at t d :
  new_dict d (mkWorld (H ++ t) fs) =
    (Ok (VRef (length H + length t)), mkWorld (H ++ (t ++ [ODict d])) fs).
Proof.
  unfold new_dict, bind, alloc, ret. simpl.
  rewrite length_app, <- app_assoc. reflexivity.
Qed.

Lemma new_list_at t items :
  new_list items (mkWorld (H ++ t) fs) =
    (Ok (VRef (length H + length t)), mkWorld (H ++ (t ++ [OList items])) fs).
Proof.
  unfold new_list, bind, alloc, ret. simpl.
  rewrite length_app, <- app_assoc. reflexivity.
Qed.

(** Reads of objects that were there before. *)
Lemma getattr_old t l d k v :
  H !! l = Some (OData d) -> dict_get d k = Some v ->
  getattr (VRef l) k (mkWorld (H ++ t) fs) = (Ok v, mkWorld (H ++ t) fs).
Proof.
  intros Hl Hk. unfold getattr, bind, deref. simpl.
  rewrite (lookup_app_l_Some _ _ _ _ Hl). simpl. rewrite Hk. reflexivity.
Qed.

Lemma getattr_inst t l c d k v :
  H !! l = Some (OInst c d) -> dict_get d k = Some v ->
  getattr (VRef l) k (mkWorld (H ++ t) fs) = (Ok v, mkWorld (H ++ t) fs).
Proof.
  intros Hl Hk. unfold getattr, bind, deref. simpl.
  rewrite (lookup_app_l_Some _ _ _ _ Hl). simpl. rewrite Hk. reflexivity.
Qed.

Lemma iter_old t l items :
  H !! l = Some (OList items) ->
  iter (VRef l) (mkWorld (H ++ t) fs) = (Ok items, mkWorld (H ++ t) fs).
Proof.
  intros Hl. unfold iter, bind, deref. simpl.
  rewrite (lookup_app_l_Some _ _ _ _ Hl). reflexivity.
Qed.

Lemma truthy_old_list t l items :
  H !! l = Some (OList items) ->
  truthy (VRef l) (mkWorld (H ++ t) fs) =
    (Ok (negb (Nat.eqb (length items) 0)), mkWorld (H ++ t) fs).
Proof.
  intros Hl. unfold truthy, bind, deref. simpl.
  rewrite (lookup_app_l_Some _ _ _ _ Hl). reflexivity.
Qed.

Lemma getitem_old t l d k v :
  H !! l = Some (ODict d) -> dict_get d k = Some v ->
  getitem (VRef l) k (mkWorld (H ++ t) fs) = (Ok v, mkWorld (H ++ t) fs).
Proof.
  intros Hl Hk. unfold getitem, bind, deref. simpl.
  rewrite (lookup_app_l_Some _ _ _ _ Hl). simpl. rewrite Hk. reflexivity.
Qed.

(** Updates of objects that were there before. *)
Lemma list_append_old t l items v :
  H !! l = Some (OList items) ->
  list_append (VRef l) v (mkWorld (H ++ t) fs) =
    (Ok tt, mkWorld (<[l := OList (items ++ [v])]> H ++ t) fs).
Proof.
  intros Hl. unfold list_append, bind, deref, store. simpl.
  rewrite (lookup_app_l_Some _ _ _ _ Hl). simpl.
  rewrite insert_app_l by (eapply lookup_lt_Some; eassumption). reflexivity.
Qed.

Lemma SubElement_old t l tag ptag pa pt pc :
  H !! l = Some (OElement ptag pa pt pc) ->
  SubElement (VRef l) tag (mkWorld (H ++ t) fs) =
    (Ok (VRef (length H + length t)),
     mkWorld (<[l := OElement ptag pa pt (pc ++ [(length H + length t)%nat])]> H
              ++ (t ++ [OElement tag [] VNone []])) fs).
Proof.
  intros Hl. unfold SubElement, bind, deref, alloc, store, ret. simpl.
  rewrite (lookup_app_l_Some _ _ _ _ Hl). simpl.
  rewrite length_app, <- app_assoc.
  rewrite insert_app_l by (eapply lookup_lt_Some; eassumption). reflexivity.
Qed.

(** Reads and updates of the objects of the tail. *)
Lemma setitem_at t k d key v :
  t !! k = Some (ODict d) ->
  setitem (VRef (length H + k)) key v (mkWorld (H ++ t) fs) =
    (Ok tt, mkWorld (H ++ <[k := ODict (dict_set d key v)]> t) fs).
Proof.
  intros Hk. unfold setitem, bind, deref, store. simpl.
  rewrite lookup_app_plus, Hk. simpl. rewrite insert_app_r. reflexivity.
Qed.

Lemma getitem_at t k d key v :
  t !! k = Some (ODict d) -> dict_get d key = Some v ->
  getitem (VRef (length H + k)) key (mkWorld (H ++ t) fs) = (Ok v, mkWorld (H ++ t) fs).
Proof.
  intros Hk Hv. unfold getitem, bind, deref. simpl.
  rewrite lookup_app_plus, Hk. simpl. rewrite Hv. reflexivity.
Qed.

Lemma list_append_at t k items v :
  t !! k = Some (OList items) ->
  list_append (VRef (length H + k)) v (mkWorld (H ++ t) fs) =
    (Ok tt, mkWorld (H ++ <[k := OList (items ++ [v])]> t) fs).
Proof.
  intros Hk. unfold list_append, bind, deref, store. simpl.
  rewrite lookup_app_plus, Hk. simpl. rewrite insert_app_r. reflexivity.
Qed.

Lemma SubElement_at t k tag ptag pa pt pc :
  t !! k = Some (OElement ptag pa pt pc) ->
  SubElement (VRef (length H + k)) tag (mkWorld (H ++ t) fs) =
    (Ok (VRef (length H + length t)),
     mkWorld (H ++ (<[k := OElement ptag pa pt (pc ++ [(length H + length t)%nat])]> t
                    ++ [OElement tag [] VNone []])) fs).
Proof.
  intros Hk. unfold SubElement, bind, deref, alloc, store, ret. simpl.
  rewrite lookup_app_plus, Hk. simpl.
  rewrite length_app, <- app_assoc.
  rewrite insert_app_r.
  rewrite insert_app_l by (eapply lookup_lt_Some; eassumption). reflexivity.
Qed.

Lemma set_text_at t k tag a x c v :
  t !! k = Some (OElement tag a x c) ->
  set_text (VRef (length H + k)) v (mkWorld (H ++ t) fs) =
    (Ok tt, mkWorld (H ++ <[k := OElement tag a v c]> t) fs).
Proof.
  intros Hk. unfold set_text, bind, deref, store. simpl.
  rewrite lookup_app_plus, Hk. simpl. rewrite insert_app_r. reflexivity.
Qed.

Lemma Element_set_at t k tag a x c key v :
  t !! k = Some (OElement tag a x c) ->
  Element_set (VRef (length H + k)) key v (mkWorld (H ++ t) fs) =
    (Ok tt, mkWorld (H ++ <[k := OElement tag (dict_set a key v) x c]> t) fs).
Proof.
  intros Hk. unfold Element_set, bind, deref, store. simpl.
  rewrite lookup_app_plus, Hk. simpl. rewrite insert_app_r. reflexivity.
Qed.
End Steps.

(** ** Reading the scan result *)

Lemma read_str_Some v s : read_str v = Some s -> v = VStr s.
Proof. destruct v; simpl; congruence. Qed.

Lemma read_bool_Some v b : read_bool v = Some b -> v = VBool b.
Proof. destruct v; simpl; congruence. Qed.

Lemma read_datetime_Some v d : read_datetime v = Some d -> v = VDatetime d.
Proof. destruct v; simpl; congruence. Qed.

Lemma read_data_Some h v d :
  read_data h v = Some d -> exists l, v = VRef l /\ h !! l = Some (OData d).
Proof.
  destruct v; simpl; try discriminate.
  destruct (h !! l) as [[]|] eqn:Hl; try discriminate.
  intros [= ->]. eauto.
Qed.

Lemma read_list_Some h v items :
  read_list h v = Some items -> exists l, v = VRef l /\ h !! l = Some (OList items).
Proof.
  destruct v; simpl; try discriminate.
  destruct (h !! l) as [[]|] eqn:Hl; try discriminate.
  intros [= ->]. eauto.
Qed.

Lemma mapM_read_str items xs : mapM read_str items = Some xs -> items = map VStr xs.
Proof.
  intros H. apply mapM_Some in H.
  induction H as [|v x items xs Hv _ IH]; [reflexivity|].
  simpl. rewrite (read_str_Some _ _ Hv), IH. reflexivity.
Qed.

Lemma read_strings_Some h v xs :
  read_strings h v = Some xs -> exists l, v = VRef l /\ h !! l = Some (OList (map VStr xs)).
Proof.
  unfold read_strings. intros H.
  apply bind_Some in H as (items & Hl & Hm).
  apply read_list_Some in Hl as (l & -> & Hl).
  apply mapM_read_str in Hm as ->. eauto.
Qed.

Lemma attr_Some {A} (d : pydict) k (f : val -> option A) x :
  dict_get d k ≫= f = Some x -> exists v, dict_get d k = Some v /\ f v = Some x.
Proof. intros H. apply bind_Some in H. exact H. Qed.

Lemma read_plugin_Some h v p :
  read_plugin h v = Some p -> exists l, v = VRef l /\ plugin_at h l p.
Proof.
  unfold read_plugin. intros H.
  apply bind_Some in H as (d & Hd & H).
  apply bind_Some in H as (name & Hname & H).
  apply bind_Some in H as (cur & Hcur & H).
  apply bind_Some in H as (last & Hlast & H).
  apply bind_Some in H as (uri & Huri & H).
  apply bind_Some in H as (out & Hout & H).
  apply bind_Some in H as (cs & Hcs & H).
  apply bind_Some in H as (es & Hes & H).
  injection H as <-. simpl.
  apply read_data_Some in Hd as (l & -> & Hl).
  apply attr_Some in Hname as (? & Hname & ->%read_str_Some).
  apply attr_Some in Hcur as (? & Hcur & ->%read_str_Some).
  apply attr_Some in Hlast as (? & Hlast & ->%read_str_Some).
  apply attr_Some in Huri as (? & Huri & ->%read_str_Some).
  apply attr_Some in Hout as (? & Hout & ->%read_bool_Some).
  apply attr_Some in Hcs as (? & Hcs & (lc & -> & Hlc)%read_strings_Some).
  apply attr_Some in Hes as (? & Hes & (le & -> & Hle)%read_strings_Some).
  exists l. split; [reflexivity|]. exists d, lc, le. simpl. tauto.
Qed.

Lemma read_scan_Some h v info :
  read_scan h v = Some info -> exists l, v = VRef l /\ scan_at h l info.
Proof.
  unfold read_scan. intros H.
  apply bind_Some in H as (d & Hd & H).
  apply bind_Some in H as (tgt & Htgt & H).
  apply bind_Some in H as (t0 & Ht0 & H).
  apply bind_Some in H as (t1 & Ht1 & H).
  apply bind_Some in H as (wp & Hwp & H).
  apply bind_Some in H as (vs & Hvs & H).
  apply bind_Some in H as (ps & Hps & H).
  injection H as <-. simpl.
  apply read_data_Some in Hd as (l & -> & Hl).
  apply attr_Some in Htgt as (? & Htgt & ->%read_str_Some).
  apply attr_Some in Ht0 as (? & Ht0 & ->%read_datetime_Some).
  apply attr_Some in Ht1 as (? & Ht1 & ->%read_datetime_Some).
  apply attr_Some in Hwp as (vw & Hwp & Hw).
  unfold read_wordpress in Hw.
  apply bind_Some in Hw as (dw & Hdw & Hw).
  apply bind_Some in Hw as (cur & Hcur & Hw).
  apply bind_Some in Hw as (last & Hlast & Hw).
  injection Hw as <-.
  apply read_data_Some in Hdw as (lw & -> & Hlw).
  apply attr_Some in Hcur as (? & Hcur & ->%read_str_Some).
  apply attr_Some in Hlast as (? & Hlast & ->%read_str_Some).
  apply attr_Some in Hvs as (vp & Hvp & (lp & -> & Hlp)%read_list_Some).
  exists l. split; [reflexivity|]. exists d, lw, dw, lp, vs. simpl.
  repeat (split; [assumption|]).
  apply mapM_Some in Hps. unfold plugins_at.
  eapply Forall2_impl; [exact Hps|]. intros x y. apply read_plugin_Some.
Qed.

(** ** [ReporterJSON.generate] *)

Ltac step lem :=
  etransitivity; [ eapply bind_ok; lem | cbv beta ].

Lemma truthy_bool b w : truthy (VBool b) w = (Ok b, w).
Proof. reflexivity. Qed.

Lemma ReporterJSON_plugin_run H fs l p lj dj lp acc :
  plugin_at H l p ->
  H !! lj = Some (ODict dj) ->
  dict_get dj "plugins" = Some (VRef lp) ->
  H !! lp = Some (OList acc) ->
  ReporterJSON_plugin (VRef lj) (VRef l) (mkWorld H fs) =
    (Ok tt, mkWorld (<[lp := OList (acc ++ [VRef (length H)])]> H
                     ++ json_block (length H) p) fs).
Proof.
  intros (d & lc & le & Hl & Hname & Hcur & Hlast & Huri & Hout & Hc & Hlc & He & Hle)
         Hlj Hplug Hlp.
  unfold ReporterJSON_plugin.
  replace (mkWorld H fs) with (mkWorld (H ++ []) fs) by (rewrite app_nil_r; reflexivity).
  step ltac:(apply new_dict_at). simpl.
  step ltac:(eapply getattr_old; eassumption).
  step ltac:(apply setitem_at; reflexivity). simpl.
  step ltac:(eapply getattr_old; eassumption).
  step ltac:(apply setitem_at; reflexivity). simpl.
  step ltac:(eapply getattr_old; eassumption).
  step ltac:(apply setitem_at; reflexivity). simpl.
  step ltac:(eapply getattr_old; eassumption).
  step ltac:(apply setitem_at; reflexivity). simpl.
  step ltac:(eapply getattr_old; eassumption).
  step ltac:(apply truthy_bool).
  step ltac:(apply setitem_at; reflexivity). simpl.
  step ltac:(eapply getattr_old; eassumption).
  step ltac:(eapply iter_old; eassumption).
  step ltac:(apply new_list_at). simpl.
  step ltac:(apply setitem_at; reflexivity). simpl.
  step ltac:(eapply getattr_old; eassumption).
  step ltac:(eapply iter_old; eassumption).
  step ltac:(apply new_list_at). simpl.
  step ltac:(apply setitem_at; reflexivity). simpl.
  step ltac:(eapply getitem_old; eassumption).
  rewrite (list_append_old _ _ _ _ _ _ Hlp).
  rewrite Nat.add_0_r. reflexivity.
Qed.

Lemma plugin_at_app h t l p : plugin_at h l p -> plugin_at (h ++ t) l p.
Proof.
  intros (d & lc & le & Hl & Hname & Hcur & Hlast & Huri & Hout & Hc & Hlc & He & Hle).
  exists d, lc, le. repeat split; try assumption; apply lookup_app_l_Some; assumption.
Qed.

Lemma ReporterJSON_loop_run h0 fs Dj W items ps :
  plugins_at h0 items ps ->
  dict_get Dj "plugins" = Some (VRef (length h0 + 2)) ->
  forall acc B,
    for_each items (ReporterJSON_plugin (VRef (length h0)))
      (mkWorld (h0 ++ ODict Dj :: W :: OList acc :: B) fs) =
    (Ok tt,
     mkWorld (h0 ++ ODict Dj :: W
                 :: OList (acc ++ json_refs (length h0 + 3 + length B) ps)
                 :: B ++ json_blocks (length h0 + 3 + length B) ps) fs).
Proof.
  intros Hps Hplug. induction Hps as [|v p items ps (l & -> & Hp) _ IH]; intros acc B.
  - simpl. rewrite !app_nil_r. reflexivity.
  - simpl for_each.
    step ltac:(eapply (ReporterJSON_plugin_run _ _ l p (length h0) Dj (length h0 + 2) acc);
               [ apply plugin_at_app; exact Hp
               | apply list_lookup_middle; reflexivity
               | exact Hplug
               | rewrite lookup_app_plus; reflexivity ]).
    rewrite insert_app_r. simpl. rewrite <- app_assoc. simpl.
    replace (length (h0 ++ ODict Dj :: W :: OList acc :: B))
      with (length h0 + 3 + length B) by (rewrite length_app; simpl; lia).
    rewrite IH. rewrite length_app. simpl length.
    replace (length h0 + 3 + (length B + 3)) with (length h0 + 3 + length B + 3) by lia.
    rewrite <- !app_assoc. reflexivity.
Qed.

(** ** What [json.dump] sees *)

Lemma encode_strings f h xs :
  sequence (map (json_encode f h) (map VStr xs)) = Ok (map JStr xs).
Proof.
  induction xs as [|x xs IH]; [reflexivity|].
  simpl. destruct f; simpl in *; rewrite IH; reflexivity.
Qed.

Lemma encode_json_block G p post f :
  json_encode (S (S f)) (G ++ json_block (length G) p ++ post) (VRef (length G)) =
    Ok (json_plugin_doc p).
Proof.
  simpl json_encode. rewrite list_lookup_middle by reflexivity.
  cbn [map fst snd sequence result_map json_encode].
  rewrite !lookup_app_plus. simpl.
  rewrite !encode_strings. reflexivity.
Qed.

Lemma encode_json_blocks f ps : forall G post,
  sequence (map (json_encode (S (S f)) (G ++ json_blocks (length G) ps ++ post))
                (json_refs (length G) ps)) =
    Ok (map json_plugin_doc ps).
Proof.
  induction ps as [|p ps IH]; intros G post; [reflexivity|].
  cbn [json_blocks json_refs map sequence].
  rewrite <- (app_assoc (json_block (length G) p)).
  rewrite encode_json_block.
  replace (length G + 3) with (length (G ++ json_block (length G) p))
    by (rewrite length_app; reflexivity).
  rewrite (app_assoc G), IH. reflexivity.
Qed.

Lemma encode_json_heap h info :
  h <> [] ->
  json_encode (length (json_heap h info)) (json_heap h info) (VRef (length h)) =
    Ok (json_doc info).
Proof.
  intros Hne.
  assert (exists f, length (json_heap h info) = S (S (S (S f)))) as [f ->].
  { unfold json_heap. rewrite length_app. destruct h; [contradiction|]. simpl.
    set (n := length (json_blocks _ _)). exists (length h + n). lia. }
  unfold json_heap.
  simpl json_encode. rewrite list_lookup_middle by reflexivity.
  cbn [map fst snd sequence result_map json_encode].
  rewrite !lookup_app_plus. simpl.
  pose proof (encode_json_blocks f (plugins info)
                (h ++ [ODict [("target", VStr (target info));
              ("start_time", VStr (format_time (start_time info) "%H-%m-%Y %H:%M:%S"));
              ("end_time", VStr (format_time (end_time info) "%H-%m-%Y %H:%M:%S"));
              ("wordpress", VRef (length h + 1)%nat);
              ("plugins", VRef (length h + 2)%nat)];
                       ODict [("current_version", VStr (wp_current_version (wordpress_info info)));
              ("last_version", VStr (wp_latest_version (wordpress_info info)))];
                       OList (json_refs (length h + 3) (plugins info))]) []) as E.
  rewrite length_app, app_nil_r, <- app_assoc in E. simpl in E.
  rewrite E. reflexivity.
Qed.

Lemma strftime_datetime d fmt w :
  strftime (VDatetime d) fmt w = (Ok (VStr (format_time d fmt)), w).
Proof. reflexivity. Qed.

Lemma open_w_ok h fs name :
  name ∉ fs_denied fs ->
  open_w (VStr name) (mkWorld h fs) =
    (Ok (VFile (length (fs_handles fs))),
     mkWorld h (mkFS (fs_denied fs) (<[name := []]> (fs_files fs))
                     (fs_handles fs ++ [mkHandle name false]))).
Proof.
  intros Hn. unfold open_w, bind, get_fs, put_fs, ret. simpl.
  destruct (decide (name ∈ fs_denied fs)); [contradiction | reflexivity].
Qed.

Lemma open_w_denied h fs name :
  name ∈ fs_denied fs ->
  open_w (VStr name) (mkWorld h fs) = (Raise (open_failure name), mkWorld h fs).
Proof.
  intros Hn. unfold open_w, bind, get_fs, raise. simpl.
  destruct (decide (name ∈ fs_denied fs)); [reflexivity | contradiction].
Qed.

Lemma file_write_fresh h fs name data :
  file_write (VFile (length (fs_handles fs))) data
    (mkWorld h (mkFS (fs_denied fs) (<[name := []]> (fs_files fs))
                     (fs_handles fs ++ [mkHandle name false]))) =
  (Ok tt, mkWorld h (written fs name data false)).
Proof.
  unfold file_write, bind, get_fs, put_fs, written. simpl.
  rewrite list_lookup_middle by reflexivity. simpl.
  rewrite lookup_insert_eq, insert_insert_eq. reflexivity.
Qed.

Lemma ReporterJSON_generate_run h fs ls li name info :
  reporter_at h ls ReporterJSON name ->
  scan_at h li info ->
  ReporterJSON_generate (VRef ls) (VRef li) (mkWorld h fs) =
    if decide (name ∈ fs_denied fs)
    then (Raise (open_failure name), mkWorld (json_heap h info) fs)
    else (Ok tt, mkWorld (json_heap h info)
                         (written fs name (JSONText (json_doc info)) false)).
Proof.
  intros (ds & Hls & Hname)
         (d & lw & dw & lp & items & Hl & Htgt & Ht0 & Ht1 & Hwp & Hlw & Hcur & Hlast
            & Hplug & Hlp & Hps).
  unfold ReporterJSON_generate.
  replace (mkWorld h fs) with (mkWorld (h ++ []) fs) by (rewrite app_nil_r; reflexivity).
  step ltac:(apply new_dict_at). simpl.
  step ltac:(eapply getattr_old; eassumption).
  step ltac:(apply setitem_at; reflexivity). simpl.
  step ltac:(eapply getattr_old; eassumption).
  step ltac:(apply strftime_datetime).
  step ltac:(apply setitem_at; reflexivity). simpl.
  step ltac:(eapply getattr_old; eassumption).
  step ltac:(apply strftime_datetime).
  step ltac:(apply setitem_at; reflexivity). simpl.
  step ltac:(eapply getattr_old; eassumption).
  step ltac:(eapply getattr_old; eassumption).
  step ltac:(eapply getattr_old; eassumption).
  step ltac:(eapply getattr_old; eassumption).
  step ltac:(apply new_dict_at). simpl.
  step ltac:(apply setitem_at; reflexivity). simpl.
  step ltac:(apply new_list_at). simpl.
  step ltac:(apply setitem_at; reflexivity). simpl.
  step ltac:(eapply getattr_old; eassumption).
  step ltac:(eapply iter_old; eassumption).
  rewrite Nat.add_0_r.
  step ltac:(eapply ReporterJSON_loop_run; [exact Hps | reflexivity]).
  simpl. rewrite Nat.add_0_r.
  step ltac:(unfold output_filename; eapply getattr_inst; eassumption).
  fold (json_heap h info).
  destruct (decide (name ∈ fs_denied fs)) as [Hfs|Hfs].
  { unfold bind. rewrite open_w_denied by exact Hfs. reflexivity. }
  step ltac:(apply open_w_ok; exact Hfs).
  unfold json_dump. cbn [w_heap].
  rewrite encode_json_heap by (intros ->; discriminate Hl).
  apply file_write_fresh.
Qed.

(** ** [ReporterXML.generate] *)

Lemma insert_middle {A} (l1 l2 : list A) x y :
  <[length l1 := y]> (l1 ++ x :: l2) = l1 ++ y :: l2.
Proof. rewrite insert_app_r_alt by lia. rewrite Nat.sub_diag. reflexivity. Qed.

(** The inner loops: one child of [parent] per string, in order. *)
Lemma leaves_loop_run H fs tag k ptag pa pt xs : forall t kids,
  t !! k = Some (OElement ptag pa pt kids) ->
  for_each (map VStr xs)
    (fun v => x <- SubElement (VRef (length H + k)) tag ;; set_text x v)
    (mkWorld (H ++ t) fs) =
  (Ok tt,
   mkWorld (H ++ (<[k := OElement ptag pa pt
                          (kids ++ seq (length H + length t) (length xs))]> t
                  ++ map (leaf_obj tag) xs)) fs).
Proof.
  induction xs as [|x xs IH]; intros t kids Hk.
  - simpl. rewrite !app_nil_r, list_insert_id by exact Hk. reflexivity.
  - pose proof (lookup_lt_Some _ _ _ Hk) as Hlt.
    simpl for_each.
    step ltac:(step ltac:(eapply SubElement_at; exact Hk);
               eapply set_text_at;
               rewrite lookup_app_r by (rewrite length_insert; lia);
               rewrite length_insert, Nat.sub_diag; reflexivity).
    rewrite insert_app_r_alt by (rewrite length_insert; lia).
    rewrite length_insert, Nat.sub_diag. simpl insert.
    rewrite IH with (kids := kids ++ [length H + length t])
      by (apply lookup_app_l_Some, list_lookup_insert_eq; exact Hlt).
    rewrite insert_app_l by (rewrite length_insert; exact Hlt).
    rewrite list_insert_insert_eq, length_app, length_insert. simpl.
    rewrite <- !app_assoc. simpl.
    replace (length H + (length t + 1)) with (S (length H + length t)) by lia.
    reflexivity.
Qed.

Lemma plugin_at_insert H l p lp o tag a x c :
  plugin_at H l p -> H !! lp = Some (OElement tag a x c) ->
  plugin_at (<[lp := o]> H) l p.
Proof.
  intros (d & lc & le & Hl & Hname & Hcur & Hlast & Huri & Hout & Hc & Hlc & He & Hle) Hlp.
  exists d, lc, le.
  repeat split; try assumption;
    (rewrite list_lookup_insert_ne; [assumption | intros ->; congruence]).
Qed.

Lemma ReporterXML_plugin_run H fs l p lp ptag pa pt kids :
  plugin_at H l p ->
  H !! lp = Some (OElement ptag pa pt kids) ->
  ReporterXML_plugin (VRef lp) (VRef l) (mkWorld H fs) =
    (Ok tt, mkWorld (<[lp := OElement ptag pa pt (kids ++ [length H])]> H
                     ++ xml_block (length H) p) fs).
Proof.
  intros Hp Hlp.
  unfold ReporterXML_plugin.
  replace (mkWorld H fs) with (mkWorld (H ++ []) fs) by (rewrite app_nil_r; reflexivity).
  step ltac:(eapply SubElement_old; exact Hlp). simpl. rewrite Nat.add_0_r.
  pose proof (plugin_at_insert _ _ _ _ (OElement ptag pa pt (kids ++ [length H])) _ _ _ _ Hp Hlp)
    as (d & lc & le & Hl & Hname & Hcur & Hlast & Huri & Hout & Hc & Hlc & He & Hle).
  assert (Hlen : length H = length (<[lp := OElement ptag pa pt (kids ++ [length H])]> H) + 0)
    by (rewrite length_insert; lia).
  revert Hl Hlc Hle Hlen.
  set (H' := <[lp := _]> H). intros Hl Hlc Hle Hlen. rewrite Hlen. clearbody H'. clear Hlen.
  step ltac:(eapply getattr_old; eassumption).
  step ltac:(eapply set_text_at; reflexivity). simpl.
  step ltac:(eapply getattr_old; eassumption).
  step ltac:(eapply Element_set_at; reflexivity). simpl.
  step ltac:(eapply getattr_old; eassumption).
  step ltac:(eapply Element_set_at; reflexivity). simpl.
  step ltac:(eapply getattr_old; eassumption).
  step ltac:(eapply Element_set_at; reflexivity). simpl.
  step ltac:(eapply getattr_old; eassumption).
  step ltac:(apply truthy_bool).
  step ltac:(eapply Element_set_at; reflexivity). simpl.
  step ltac:(eapply getattr_old; eassumption).
  step ltac:(eapply truthy_old_list; eassumption).
  unfold xml_block.
  destruct (cves p) as [|c cs] eqn:Ecs.
  - simpl.
    step ltac:(reflexivity).
    step ltac:(eapply getattr_old; eassumption).
    step ltac:(eapply truthy_old_list; eassumption).
    reflexivity.
  - rewrite <- Ecs in *.
    assert (Ht : negb (length (map VStr (cves p)) =? 0) = true)
      by (rewrite Ecs; reflexivity).
    rewrite Ht.
    step ltac:(
      step ltac:(eapply SubElement_at with (k := 0); reflexivity); simpl;
      step ltac:(eapply getattr_old; eassumption);
      step ltac:(eapply iter_old; eassumption);
      apply (leaves_loop_run H' fs "cve" 1); reflexivity).
    simpl.
    step ltac:(eapply getattr_old; eassumption).
    step ltac:(eapply truthy_old_list; eassumption).
    rewrite Ht.
    step ltac:(eapply SubElement_at with (k := 0); reflexivity). simpl.
    step ltac:(eapply getattr_old; eassumption).
    step ltac:(eapply iter_old; eassumption).
    rewrite (leaves_loop_run H' fs "exploits" (S (S (length (map (leaf_obj "cve") (cves p))))))
      with (kids := []) (ptag := "exploits") (pa := []) (pt := VNone)
      by (simpl; apply list_lookup_middle; reflexivity).
    simpl. rewrite insert_middle, <- app_assoc. simpl.
    rewrite !length_app, !length_map. simpl.
    repeat (f_equal; try lia).
Qed.

Lemma xml_block_length b p : length (xml_block b p) = xml_block_size p.
Proof.
  unfold xml_block, xml_block_size. destruct (cves p) as [|c cs]; [reflexivity|].
  cbn [length]. rewrite length_app. cbn [length]. rewrite !length_map. simpl. lia.
Qed.

Lemma ReporterXML_loop_run h0 fs o0 o1 o2 o3 o4 items ps :
  plugins_at h0 items ps ->
  forall acc B,
    for_each items (ReporterXML_plugin (VRef (length h0 + 5)))
      (mkWorld (h0 ++ o0 :: o1 :: o2 :: o3 :: o4
                   :: OElement "plugins" [] VNone acc :: B) fs) =
    (Ok tt,
     mkWorld (h0 ++ o0 :: o1 :: o2 :: o3 :: o4
                 :: OElement "plugins" [] VNone
                             (acc ++ xml_locs (length h0 + 6 + length B) ps)
                 :: B ++ xml_blocks (length h0 + 6 + length B) ps) fs).
Proof.
  intros Hps. induction Hps as [|v p items ps (l & -> & Hp) _ IH]; intros acc B.
  - simpl. rewrite !app_nil_r. reflexivity.
  - simpl for_each.
    step ltac:(eapply (ReporterXML_plugin_run _ _ l p (length h0 + 5));
               [ apply plugin_at_app; exact Hp
               | rewrite lookup_app_plus; reflexivity ]).
    rewrite insert_app_r. simpl. rewrite <- app_assoc. simpl.
    replace (length (h0 ++ o0 :: o1 :: o2 :: o3 :: o4
                        :: OElement "plugins" [] VNone acc :: B))
      with (length h0 + 6 + length B) by (rewrite length_app; simpl; lia).
    rewrite IH. rewrite length_app, xml_block_length.
    replace (length h0 + 6 + (length B + xml_block_size p))
      with (length h0 + 6 + length B + xml_block_size p) by lia.
    rewrite <- !app_assoc. reflexivity.
Qed.

(** ** What [ElementTree.write] sees *)

Lemma tree_leaves tag f xs : forall G post,
  sequence (map (xml_tree (S f) (G ++ map (leaf_obj tag) xs ++ post))
                (seq (length G) (length xs))) =
    Ok (map (leaf tag) xs).
Proof.
  induction xs as [|x xs IH]; intros G post; [reflexivity|].
  cbn [map length seq sequence app].
  replace (xml_tree (S f) (G ++ leaf_obj tag x :: map (leaf_obj tag) xs ++ post) (length G))
    with (Ok (leaf tag x) : result xml)
    by (simpl; rewrite list_lookup_middle by reflexivity; reflexivity).
  replace (S (length G)) with (length (G ++ [leaf_obj tag x]))
    by (rewrite length_app; simpl; lia).
  replace (G ++ leaf_obj tag x :: map (leaf_obj tag) xs ++ post)
    with ((G ++ [leaf_obj tag x]) ++ map (leaf_obj tag) xs ++ post)
    by (rewrite <- app_assoc; reflexivity).
  rewrite IH. reflexivity.
Qed.

Ltac list_norm := repeat (rewrite <- ?app_assoc; progress cbn [app]); rewrite <- ?app_assoc.

Lemma tree_xml_block G p post f :
  xml_tree (S (S (S f))) (G ++ xml_block (length G) p ++ post) (length G) =
    Ok (xml_plugin_doc p).
Proof.
  unfold xml_block, xml_plugin_doc, xml_plugin_children.
  destruct (cves p) as [|c cs] eqn:Ecs.
  - simpl. rewrite list_lookup_middle by reflexivity. reflexivity.
  - rewrite <- Ecs.
    set (xp := OElement "plugin" _ _ _).
    set (cv := OElement "cves" _ _ _).
    set (ex := OElement "exploits" _ _ _).
    set (lc := map (leaf_obj "cve") (cves p)).
    set (le := map (leaf_obj "exploits") (exploits p)).
    remember (G ++ (xp :: cv :: lc ++ ex :: le) ++ post) as hh eqn:Ehh.
    assert (L0 : hh !! length G = Some xp).
    { subst hh. apply list_lookup_middle. reflexivity. }
    assert (L1 : hh !! (length G + 1) = Some cv).
    { subst hh. rewrite lookup_app_plus. reflexivity. }
    assert (L2 : hh !! (length G + 2 + length (cves p)) = Some ex).
    { subst hh. rewrite <- Nat.add_assoc, lookup_app_plus. simpl.
      rewrite <- app_assoc. apply list_lookup_middle. subst lc. rewrite length_map. reflexivity. }
    assert (T1 : sequence (map (xml_tree (S f) hh) (seq (length G + 2) (length (cves p)))) =
                 Ok (map (leaf "cve") (cves p))).
    { pose proof (tree_leaves "cve" f (cves p) (G ++ [xp; cv]) (ex :: le ++ post)) as T.
      rewrite length_app in T. change (length [xp; cv]) with 2 in T.
      replace ((G ++ [xp; cv]) ++ map (leaf_obj "cve") (cves p) ++ ex :: le ++ post)
        with hh in T; [exact T|].
      subst hh lc. list_norm. reflexivity. }
    assert (T2 : sequence (map (xml_tree (S f) hh)
                               (seq (length G + 3 + length (cves p)) (length (exploits p)))) =
                 Ok (map (leaf "exploits") (exploits p))).
    { pose proof (tree_leaves "exploits" f (exploits p) (G ++ xp :: cv :: lc ++ [ex]) post) as T.
      rewrite length_app in T. cbn [length] in T. rewrite length_app in T.
      subst lc. rewrite length_map in T. cbn [length] in T.
      replace (length G + S (S (length (cves p) + 1))) with (length G + 3 + length (cves p))
        in T by lia.
      replace ((G ++ xp :: cv :: map (leaf_obj "cve") (cves p) ++ [ex]) ++
               map (leaf_obj "exploits") (exploits p) ++ post)
        with hh in T; [exact T|].
      subst hh le. list_norm. reflexivity. }
    clear Ehh.
    cbn [xml_tree]. rewrite L0. subst xp. cbn [map sequence xml_attr xml_text fst snd xml_tree].
    rewrite L1, L2. subst cv ex. cbn [map sequence xml_attr xml_text fst snd].
    cbn [xml_tree] in T1, T2. rewrite T1, T2. rewrite Ecs. reflexivity.
Qed.

Lemma tree_xml_blocks f ps : forall G post,
  sequence (map (xml_tree (S (S (S f))) (G ++ xml_blocks (length G) ps ++ post))
                (xml_locs (length G) ps)) =
    Ok (map xml_plugin_doc ps).
Proof.
  induction ps as [|p ps IH]; intros G post; [reflexivity|].
  cbn [xml_blocks xml_locs map sequence].
  rewrite <- (app_assoc (xml_block (length G) p)).
  rewrite tree_xml_block.
  replace (length G + xml_block_size p) with (length (G ++ xml_block (length G) p))
    by (rewrite length_app, xml_block_length; reflexivity).
  rewrite (app_assoc G), IH. reflexivity.
Qed.

Lemma tree_xml_heap h info :
  xml_tree (length (xml_heap h info)) (xml_heap h info) (length h) = Ok (xml_doc info).
Proof.
  assert (exists f, length (xml_heap h info) = S (S (S (S (S f))))) as [f ->].
  { unfold xml_heap. rewrite length_app. simpl.
    set (n := length (xml_blocks _ _)). exists (length h + n + 1). lia. }
  unfold xml_heap, xml_doc.
  set (o0 := OElement "libs" _ _ _).
  set (o1 := leaf_obj "target" _).
  set (o2 := leaf_obj "start_time" _).
  set (o3 := leaf_obj "end_time" _).
  set (o4 := OElement "wordpress" _ _ _).
  set (o5 := OElement "plugins" _ _ _).
  pose proof (tree_xml_blocks f (plugins info) (h ++ [o0; o1; o2; o3; o4; o5]) []) as T.
  rewrite length_app, app_nil_r, <- app_assoc in T.
  change (length [o0; o1; o2; o3; o4; o5]) with 6 in T. cbn [app] in T.
  remember (h ++ o0 :: o1 :: o2 :: o3 :: o4 :: o5 :: xml_blocks (length h + 6) (plugins info))
    as hh eqn:Ehh.
  assert (L0 : hh !! length h = Some o0).
  { subst hh. apply list_lookup_middle. reflexivity. }
  assert (L1 : hh !! (length h + 1) = Some o1).
  { subst hh. rewrite lookup_app_plus. reflexivity. }
  assert (L2 : hh !! (length h + 2) = Some o2).
  { subst hh. rewrite lookup_app_plus. reflexivity. }
  assert (L3 : hh !! (length h + 3) = Some o3).
  { subst hh. rewrite lookup_app_plus. reflexivity. }
  assert (L4 : hh !! (length h + 4) = Some o4).
  { subst hh. rewrite lookup_app_plus. reflexivity. }
  assert (L5 : hh !! (length h + 5) = Some o5).
  { subst hh. rewrite lookup_app_plus. reflexivity. }
  clear Ehh.
  cbn [xml_tree]. rewrite L0. subst o0.
  cbn [map sequence xml_attr xml_text fst snd xml_tree].
  rewrite L1, L2, L3, L4, L5. subst o1 o2 o3 o4 o5. unfold leaf_obj.
  cbn [map sequence xml_attr xml_text fst snd].
  cbn [xml_tree] in T. rewrite T. reflexivity.
Qed.

Lemma Element_at H fs t tag :
  Element tag (mkWorld (H ++ t) fs) =
    (Ok (VRef (length H + length t)), mkWorld (H ++ (t ++ [OElement tag [] VNone []])) fs).
Proof.
  unfold Element, bind, alloc, ret. simpl.
  rewrite length_app, <- app_assoc. reflexivity.
Qed.

Lemma file_close_fresh h fs name data :
  file_close (VFile (length (fs_handles fs))) (mkWorld h (written fs name data false)) =
    (Ok tt, mkWorld h (written fs name data true)).
Proof.
  unfold file_close, bind, get_fs, put_fs, written. simpl.
  rewrite list_lookup_middle by reflexivity. simpl.
  rewrite insert_middle. reflexivity.
Qed.

Lemma ElementTree_write_run h fs l name enc x :
  name ∉ fs_denied fs ->
  xml_tree (length h) h l = Ok x ->
  ElementTree_write (VRef l) (VStr name) enc (mkWorld h fs) =
    (Ok tt, mkWorld h (written fs name (XMLText enc x) true)).
Proof.
  intros Hfs Hx. unfold ElementTree_write.
  step ltac:(apply open_w_ok; exact Hfs).
  unfold try_finally. cbn [w_heap]. rewrite Hx.
  rewrite file_write_fresh, file_close_fresh. reflexivity.
Qed.

Lemma ReporterXML_generate_run h fs ls li name info :
  reporter_at h ls ReporterXML name ->
  scan_at h li info ->
  ReporterXML_generate (VRef ls) (VRef li) (mkWorld h fs) =
    if decide (name ∈ fs_denied fs)
    then (Raise (open_failure name), mkWorld (xml_heap h info) fs)
    else (Ok tt, mkWorld (xml_heap h info)
                         (written fs name (XMLText "UTF-8" (xml_doc info)) true)).
Proof.
  intros (ds & Hls & Hname)
         (d & lw & dw & lp & items & Hl & Htgt & Ht0 & Ht1 & Hwp & Hlw & Hcur & Hlast
            & Hplug & Hlp & Hps).
  unfold ReporterXML_generate.
  replace (mkWorld h fs) with (mkWorld (h ++ []) fs) by (rewrite app_nil_r; reflexivity).
  step ltac:(apply Element_at). simpl.
  step ltac:(eapply SubElement_at; reflexivity). simpl.
  step ltac:(eapply getattr_old; eassumption).
  step ltac:(eapply set_text_at; reflexivity). simpl.
  step ltac:(eapply SubElement_at; reflexivity). simpl.
  step ltac:(eapply getattr_old; eassumption).
  step ltac:(apply strftime_datetime).
  step ltac:(eapply set_text_at; reflexivity). simpl.
  step ltac:(eapply SubElement_at; reflexivity). simpl.
  step ltac:(eapply getattr_old; eassumption).
  step ltac:(apply strftime_datetime).
  step ltac:(eapply set_text_at; reflexivity). simpl.
  step ltac:(eapply SubElement_at; reflexivity). simpl.
  step ltac:(eapply getattr_old; eassumption).
  step ltac:(eapply getattr_old; eassumption).
  step ltac:(eapply Element_set_at; reflexivity). simpl.
  step ltac:(eapply getattr_old; eassumption).
  step ltac:(eapply getattr_old; eassumption).
  step ltac:(eapply Element_set_at; reflexivity). simpl.
  step ltac:(eapply SubElement_at; reflexivity). simpl.
  step ltac:(eapply getattr_old; eassumption).
  step ltac:(eapply iter_old; eassumption).
  step ltac:(eapply ReporterXML_loop_run; exact Hps).
  simpl. rewrite !Nat.add_0_r.
  step ltac:(unfold output_filename; eapply getattr_inst; eassumption).
  unfold leaf_obj in *.
  fold (leaf_obj "target" (target info)).
  fold (leaf_obj "start_time" (format_time (start_time info) "%H-%m-%Y %H:%M:%S")).
  fold (leaf_obj "end_time" (format_time (end_time info) "%H-%m-%Y %H:%M:%S")).
  fold (xml_heap h info).
  destruct (decide (name ∈ fs_denied fs)) as [Hfs|Hfs].
  { unfold ElementTree_write, bind. rewrite open_w_denied by exact Hfs. reflexivity. }
  apply ElementTree_write_run; [exact Hfs|].
  apply tree_xml_heap.
Qed.

(** ** The scan result survives growth of the store *)

Lemma read_data_app h t v d : read_data h v = Some d -> read_data (h ++ t) v = Some d.
Proof.
  intros (l & -> & Hl)%read_data_Some. simpl.
  rewrite (lookup_app_l_Some _ _ _ _ Hl). reflexivity.
Qed.

Lemma read_list_app h t v items :
  read_list h v = Some items -> read_list (h ++ t) v = Some items.
Proof.
  intros (l & -> & Hl)%read_list_Some. simpl.
  rewrite (lookup_app_l_Some _ _ _ _ Hl). reflexivity.
Qed.

Lemma read_strings_app h t v xs :
  read_strings h v = Some xs -> read_strings (h ++ t) v = Some xs.
Proof.
  unfold read_strings. intros (items & Hl & Hm)%bind_Some.
  rewrite (read_list_app _ t _ _ Hl). exact Hm.
Qed.

Lemma attr_app {A} (f g : val -> option A) (d : pydict) k x :
  (forall v, f v = Some x -> g v = Some x) ->
  dict_get d k ≫= f = Some x -> dict_get d k ≫= g = Some x.
Proof.
  intros Hfg (v & Hv & Hf)%bind_Some. rewrite Hv. simpl. apply Hfg, Hf.
Qed.

Lemma read_plugin_app h t v p : read_plugin h v = Some p -> read_plugin (h ++ t) v = Some p.
Proof.
  unfold read_plugin. intros H.
  apply bind_Some in H as (d & Hd & H).
  apply bind_Some in H as (name & Hname & H).
  apply bind_Some in H as (cur & Hcur & H).
  apply bind_Some in H as (last & Hlast & H).
  apply bind_Some in H as (uri & Huri & H).
  apply bind_Some in H as (out & Hout & H).
  apply bind_Some in H as (cs & Hcs & H).
  apply bind_Some in H as (es & Hes & H).
  rewrite (read_data_app _ t _ _ Hd). simpl.
  rewrite Hname, Hcur, Hlast, Huri, Hout. simpl.
  rewrite (attr_app _ (read_strings (h ++ t)) _ _ _ (fun u => read_strings_app h t u cs) Hcs). simpl.
  rewrite (attr_app _ (read_strings (h ++ t)) _ _ _ (fun u => read_strings_app h t u es) Hes). simpl.
  exact H.
Qed.

Lemma read_wordpress_app h t v wp :
  read_wordpress h v = Some wp -> read_wordpress (h ++ t) v = Some wp.
Proof.
  unfold read_wordpress. intros (d & Hd & H)%bind_Some.
  rewrite (read_data_app _ t _ _ Hd). exact H.
Qed.

Lemma read_scan_app h t v info : read_scan h v = Some info -> read_scan (h ++ t) v = Some info.
Proof.
  unfold read_scan. intros H.
  apply bind_Some in H as (d & Hd & H).
  apply bind_Some in H as (tgt & Htgt & H).
  apply bind_Some in H as (t0 & Ht0 & H).
  apply bind_Some in H as (t1 & Ht1 & H).
  apply bind_Some in H as (wp & Hwp & H).
  apply bind_Some in H as (vs & Hvs & H).
  apply bind_Some in H as (ps & Hps & H).
  rewrite (read_data_app _ t _ _ Hd). simpl.
  rewrite Htgt, Ht0, Ht1. simpl.
  rewrite (attr_app _ (read_wordpress (h ++ t)) _ _ _ (fun u => read_wordpress_app h t u wp) Hwp). simpl.
  rewrite (attr_app _ (read_list (h ++ t)) _ _ _ (fun u => read_list_app h t u vs) Hvs). simpl.
  assert (Hps' : mapM (read_plugin (h ++ t)) vs = Some ps).
  { apply mapM_Some. apply mapM_Some in Hps.
    eapply Forall2_impl; [exact Hps|]. intros x y. apply read_plugin_app. }
  rewrite Hps'. exact H.
Qed.

(** ** Dispatch *)

Lemma generate_JSON h fs ls name v :
  reporter_at h ls ReporterJSON name ->
  generate (VRef ls) v (mkWorld h fs) = ReporterJSON_generate (VRef ls) v (mkWorld h fs).
Proof.
  intros (d & Hl & _). unfold generate, bind, deref. simpl. rewrite Hl. reflexivity.
Qed.

Lemma generate_XML h fs ls name v :
  reporter_at h ls ReporterXML name ->
  generate (VRef ls) v (mkWorld h fs) = ReporterXML_generate (VRef ls) v (mkWorld h fs).
Proof.
  intros (d & Hl & _). unfold generate, bind, deref. simpl. rewrite Hl. reflexivity.
Qed.

(** What a call of [generate] does, for both writers: the store grows, the
    file is written unless it cannot be opened. *)
Lemma generate_JSON_run h fs ls v name info :
  reporter_at h ls ReporterJSON name ->
  read_scan h v = Some info ->
  generate (VRef ls) v (mkWorld h fs) =
    if decide (name ∈ fs_denied fs)
    then (Raise (open_failure name), mkWorld (json_heap h info) fs)
    else (Ok tt, mkWorld (json_heap h info)
                         (written fs name (JSONText (json_doc info)) false)).
Proof.
  intros Hr (li & -> & Hi)%read_scan_Some.
  rewrite (generate_JSON _ _ _ _ _ Hr). apply ReporterJSON_generate_run; assumption.
Qed.

Lemma generate_XML_run h fs ls v name info :
  reporter_at h ls ReporterXML name ->
  read_scan h v = Some info ->
  generate (VRef ls) v (mkWorld h fs) =
    if decide (name ∈ fs_denied fs)
    then (Raise (open_failure name), mkWorld (xml_heap h info) fs)
    else (Ok tt, mkWorld (xml_heap h info)
                         (written fs name (XMLText "UTF-8" (xml_doc info)) true)).
Proof.
  intros Hr (li & -> & Hi)%read_scan_Some.
  rewrite (generate_XML _ _ _ _ _ Hr). apply ReporterXML_generate_run; assumption.
Qed.

Lemma written_lookup fs name data closed :
  fs_files (written fs name data closed) !! name = Some [data].
Proof. unfold written. simpl. apply lookup_insert_eq. Qed.

(** ** The written documents *)

Lemma append_empty_r s : s +:+ EmptyString = s.
Proof. induction s as [|c s IH]; [reflexivity|]. rewrite app_cons, IH. reflexivity. Qed.

(** C2: [ReporterJSON.generate] writes to the output file one JSON object
    with the members [target], [start_time], [end_time], [wordpress] (an
    object with [current_version] and [last_version]) and [plugins], in this
    order; [plugins] is an array with one object per finding, in input
    order, each with the members [plugin_name], [current_version],
    [last_version], [url], [outdated] (Yes or No), [cves] and [exploits],
    the last two always there; without findings the array is empty. *)
Theorem ReporterJSON_generate_document
    (h : list obj) (fs : filesystem) (ls : loc) (v : val) (name : string)
    (info : ScanResult) :
  reporter_at h ls ReporterJSON name ->
  read_scan h v = Some info ->
  name ∉ fs_denied fs ->
  exists w',
    generate (VRef ls) v (mkWorld h fs) = (Ok tt, w') /\
    fs_files (w_fs w') !! name =
      Some [JSONText
              (JObj [("target", JStr (target info));
                     ("start_time",
                      JStr (format_time (start_time info) "%H-%m-%Y %H:%M:%S"));
                     ("end_time",
                      JStr (format_time (end_time info) "%H-%m-%Y %H:%M:%S"));
                     ("wordpress",
                      JObj [("current_version",
                             JStr (wp_current_version (wordpress_info info)));
                            ("last_version",
                             JStr (wp_latest_version (wordpress_info info)))]);
                     ("plugins",
                      JArr (map (fun p =>
                        JObj [("plugin_name", JStr (plugin_name p));
                              ("current_version", JStr (current_version p));
                              ("last_version", JStr (latest_version p));
                              ("url", JStr (plugin_uri p));
                              ("outdated", JStr (if is_outdated p then "Yes" else "No"));
                              ("cves", JArr (map JStr (cves p)));
                              ("exploits", JArr (map JStr (exploits p)))])
                        (plugins info)))])] /\
    (plugins info = [] ->
     exists j, fs_files (w_fs w') !! name = Some [JSONText j] /\
               json_get "plugins" j = Some (JArr [])).
Proof.
  intros Hr Hi Hfs. eexists. split; [|split].
  - rewrite (generate_JSON_run _ _ _ _ _ _ Hr Hi).
    destruct (decide (name ∈ fs_denied fs)); [contradiction | reflexivity].
  - apply written_lookup.
  - intros Hnil. eexists. split; [apply written_lookup|].
    unfold json_doc. rewrite Hnil. reflexivity.
Qed.

Lemma ReporterJSON_generate_document_witness :
  exists w',
    generate (VRef 9) (VRef 8) json_world = (Ok tt, w') /\
    fs_files (w_fs w') !! "out.json" = Some [JSONText (json_doc sample_scan)].
Proof.
  destruct (ReporterJSON_generate_document
              (w_heap json_world) (w_fs json_world) 9 (VRef 8) "out.json" sample_scan)
    as (w' & Hrun & Hfile & _).
  - eexists. split; reflexivity.
  - reflexivity.
  - apply not_elem_of_empty.
  - exists w'. split; [exact Hrun | exact Hfile].
Defined.

(** C3: [ReporterXML.generate] writes a tree with root [libs] whose
    children are, in order, [target] (text: the target), [start_time],
    [end_time], [wordpress] (attributes [current_version] and
    [last_version], no text, no child) and [plugins]; [plugins] has one
    [plugin] child per finding, in input order, with the plugin name as text
    and the attributes [current_version], [last_version], [url] and
    [outdated] (Yes or No). *)
Theorem ReporterXML_generate_document
    (h : list obj) (fs : filesystem) (ls : loc) (v : val) (name : string)
    (info : ScanResult) :
  reporter_at h ls ReporterXML name ->
  read_scan h v = Some info ->
  name ∉ fs_denied fs ->
  exists w' elems,
    generate (VRef ls) v (mkWorld h fs) = (Ok tt, w') /\
    fs_files (w_fs w') !! name =
      Some [XMLText "UTF-8"
              (XNode "libs" [] None
                 [XNode "target" [] (Some (target info)) [];
                  XNode "start_time" []
                        (Some (format_time (start_time info) "%H-%m-%Y %H:%M:%S")) [];
                  XNode "end_time" []
                        (Some (format_time (end_time info) "%H-%m-%Y %H:%M:%S")) [];
                  XNode "wordpress"
                        [("current_version", wp_current_version (wordpress_info info));
                         ("last_version", wp_latest_version (wordpress_info info))]
                        None [];
                  XNode "plugins" [] None elems])] /\
    Forall2 (fun p x =>
               xml_tag x = "plugin" /\
               xml_text_of x = Some (plugin_name p) /\
               xml_attrs x = [("current_version", current_version p);
                              ("last_version", latest_version p);
                              ("url", plugin_uri p);
                              ("outdated", if is_outdated p then "Yes" else "No")])
            (plugins info) elems.
Proof.
  intros Hr Hi Hfs. exists (mkWorld (xml_heap h info)
                     (written fs name (XMLText "UTF-8" (xml_doc info)) true)),
                    (map xml_plugin_doc (plugins info)).
  split; [|split].
  - rewrite (generate_XML_run _ _ _ _ _ _ Hr Hi).
    destruct (decide (name ∈ fs_denied fs)); [contradiction | reflexivity].
  - apply written_lookup.
  - apply Forall2_fmap_r, Forall_Forall2_diag, Forall_forall.
    intros p _. repeat split.
Qed.

Lemma ReporterXML_generate_document_witness :
  exists w',
    generate (VRef 9) (VRef 8) xml_world = (Ok tt, w') /\
    is_Some (fs_files (w_fs w') !! "out.xml").
Proof.
  destruct (ReporterXML_generate_document
              (w_heap xml_world) (w_fs xml_world) 9 (VRef 8) "out.xml" sample_scan)
    as (w' & elems & Hrun & Hfile & _).
  - eexists. split; reflexivity.
  - reflexivity.
  - apply not_elem_of_empty.
  - exists w'. split; [exact Hrun|]. rewrite Hfile. eauto.
Defined.

(** C4: in the XML report the [exploits] block of a plugin depends on its
    CVEs, not on its exploits.  A plugin without CVE gets no child at all,
    whatever its exploits; a plugin with a CVE gets a [cves] element and an
    [exploits] element, whose children are tagged [exploits] too and carry
    one exploit each. *)
Theorem ReporterXML_exploits_gated_on_cves
    (h : list obj) (fs : filesystem) (ls : loc) (v : val) (name : string)
    (info : ScanResult) :
  reporter_at h ls ReporterXML name ->
  read_scan h v = Some info ->
  name ∉ fs_denied fs ->
  exists w' doc elems,
    generate (VRef ls) v (mkWorld h fs) = (Ok tt, w') /\
    fs_files (w_fs w') !! name = Some [XMLText "UTF-8" doc] /\
    xml_child "plugins" doc = Some (XNode "plugins" [] None elems) /\
    Forall2 (fun p x =>
               (cves p = [] -> xml_children x = []) /\
               (cves p <> [] ->
                xml_children x =
                  [XNode "cves" [] None
                         (map (fun c => XNode "cve" [] (Some c) []) (cves p));
                   XNode "exploits" [] None
                         (map (fun e => XNode "exploits" [] (Some e) []) (exploits p))]))
            (plugins info) elems.
Proof.
  intros Hr Hi Hfs.
  exists (mkWorld (xml_heap h info) (written fs name (XMLText "UTF-8" (xml_doc info)) true)),
         (xml_doc info), (map xml_plugin_doc (plugins info)).
  split; [|split; [|split]].
  - rewrite (generate_XML_run _ _ _ _ _ _ Hr Hi).
    destruct (decide (name ∈ fs_denied fs)); [contradiction | reflexivity].
  - apply written_lookup.
  - reflexivity.
  - apply Forall2_fmap_r, Forall_Forall2_diag, Forall_forall.
    intros p _. unfold xml_plugin_doc, xml_plugin_children. simpl.
    destruct (cves p) as [|c cs]; split; intros Hc;
      first [reflexivity | discriminate Hc | congruence].
Qed.

Lemma ReporterXML_exploits_gated_on_cves_witness :
  exists w' doc,
    generate (VRef 9) (VRef 8) gated_world = (Ok tt, w') /\
    fs_files (w_fs w') !! "out.xml" = Some [XMLText "UTF-8" doc].
Proof.
  destruct (ReporterXML_exploits_gated_on_cves
              (w_heap gated_world) (w_fs gated_world) 9 (VRef 8) "out.xml"
              (scan_of [cve_only; exploit_only]))
    as (w' & doc & elems & Hrun & Hfile & _).
  - eexists. split; reflexivity.
  - reflexivity.
  - apply not_elem_of_empty.
  - exists w', doc. split; [exact Hrun | exact Hfile].
Defined.

(** The plugin with an exploit and no CVE loses its exploit in the XML
    report, and keeps it in the JSON report. *)
Example exploit_without_cve_dropped :
  exists w',
    session ReporterXML "out.xml" (scan_of [exploit_only]) = (Ok tt, w') /\
    (fs_files (w_fs w') !! "out.xml" ≫= head) =
      Some (XMLText "UTF-8" (xml_doc (scan_of [exploit_only]))) /\
    xml_plugin_doc exploit_only =
      XNode "plugin"
            [("current_version", "2.0"); ("last_version", "2.0");
             ("url", "http://x/gallery"); ("outdated", "No")]
            (Some "gallery") [].
Proof. eexists. split; [vm_compute; reflexivity|]. split; reflexivity. Qed.

(** C5 fails on the code: for a plugin with one CVE and no exploit the
    [cves] element has its one [cve] child, and an [exploits] element is
    emitted all the same, empty. *)
Lemma ReporterXML_cve_only_emits_exploits :
  exists w',
    session ReporterXML "out.xml" (scan_of [cve_only]) = (Ok tt, w') /\
    fs_files (w_fs w') !! "out.xml" =
      Some [XMLText "UTF-8"
              (XNode "libs" [] None
                 [XNode "target" [] (Some "http://example.com") [];
                  XNode "start_time" [] (Some "14-03-2015 14:05:09") [];
                  XNode "end_time" [] (Some "14-03-2015 14:06:30") [];
                  XNode "wordpress"
                        [("current_version", "4.1"); ("last_version", "4.7.3")] None [];
                  XNode "plugins" [] None
                    [XNode "plugin"
                           [("current_version", "1.2"); ("last_version", "1.3");
                            ("url", "http://x/forms"); ("outdated", "Yes")]
                           (Some "forms")
                           [XNode "cves" [] None [XNode "cve" [] (Some "CVE-2020-1") []];
                            XNode "exploits" [] None []]]])].
Proof. eexists. split; vm_compute; reflexivity. Qed.

(** C6: both writers render [start_time] and [end_time] with the format
    [%H-%m-%Y %H:%M:%S], that is hour, month, year, then hour, minute and
    second: the first field is the hour again, not the day.  Hour, month,
    minute and second take two digits each; the year is printed as the
    platform prints it, which is on four digits from the year 1000 on and
    without padding before. *)
Theorem generate_time_format
    (c : pyclass) (h : list obj) (fs : filesystem) (ls : loc) (v : val)
    (name : string) (info : ScanResult) :
  c = ReporterJSON \/ c = ReporterXML ->
  reporter_at h ls c name ->
  read_scan h v = Some info ->
  name ∉ fs_denied fs ->
  exists w' doc,
    generate (VRef ls) v (mkWorld h fs) = (Ok tt, w') /\
    fs_files (w_fs w') !! name = Some [doc] /\
    text_field "start_time" doc =
      Some (format_time (start_time info) "%H-%m-%Y %H:%M:%S") /\
    text_field "end_time" doc =
      Some (format_time (end_time info) "%H-%m-%Y %H:%M:%S") /\
    forall d,
      valid_datetime d ->
      format_time d "%H-%m-%Y %H:%M:%S" =
        zero_pad 2 (dt_hour d) +:+ "-" +:+ zero_pad 2 (dt_month d) +:+ "-" +:+
        year_text (dt_year d) +:+ " " +:+
        zero_pad 2 (dt_hour d) +:+ ":" +:+ zero_pad 2 (dt_minute d) +:+ ":" +:+
        zero_pad 2 (dt_second d).
Proof.
  intros [-> | ->] Hr Hi Hfs.
  - eexists _, _. split; [|split; [|split; [|split]]].
    + rewrite (generate_JSON_run _ _ _ _ _ _ Hr Hi).
      destruct (decide (name ∈ fs_denied fs)); [contradiction | reflexivity].
    + apply written_lookup.
    + reflexivity.
    + reflexivity.
    + intros d _. rewrite <- (append_empty_r (zero_pad 2 (dt_second d))). reflexivity.
  - eexists _, _. split; [|split; [|split; [|split]]].
    + rewrite (generate_XML_run _ _ _ _ _ _ Hr Hi).
      destruct (decide (name ∈ fs_denied fs)); [contradiction | reflexivity].
    + apply written_lookup.
    + reflexivity.
    + reflexivity.
    + intros d _. rewrite <- (append_empty_r (zero_pad 2 (dt_second d))). reflexivity.
Qed.

Lemma generate_time_format_witness :
  (exists w' doc,
     generate (VRef 9) (VRef 8) json_world = (Ok tt, w') /\
     fs_files (w_fs w') !! "out.json" = Some [doc] /\
     text_field "start_time" doc = Some "14-03-2015 14:05:09" /\
     text_field "end_time" doc = Some "14-03-2015 14:06:30") /\
  (exists w' doc,
     generate (VRef 9) (VRef 8) xml_world = (Ok tt, w') /\
     fs_files (w_fs w') !! "out.xml" = Some [doc] /\
     text_field "start_time" doc = Some "14-03-2015 14:05:09" /\
     text_field "end_time" doc = Some "14-03-2015 14:06:30").
Proof.
  split.
  - destruct (generate_time_format ReporterJSON
                (w_heap json_world) (w_fs json_world) 9 (VRef 8) "out.json" sample_scan)
      as (w' & doc & Hrun & Hfile & H0 & H1 & _).
    + left. reflexivity.
    + eexists. split; reflexivity.
    + reflexivity.
    + apply not_elem_of_empty.
    + exists w', doc. repeat split; assumption.
  - destruct (generate_time_format ReporterXML
                (w_heap xml_world) (w_fs xml_world) 9 (VRef 8) "out.xml" sample_scan)
      as (w' & doc & Hrun & Hfile & H0 & H1 & _).
    + right. reflexivity.
    + eexists. split; reflexivity.
    + reflexivity.
    + apply not_elem_of_empty.
    + exists w', doc. repeat split; assumption.
Defined.

(** ** The writers only read their input *)

Lemma json_plugin_names_doc info :
  json_plugin_names (json_doc info) = map plugin_name (plugins info).
Proof.
  unfold json_plugin_names, json_doc. simpl.
  induction (plugins info) as [|p ps IH]; [reflexivity|].
  simpl. f_equal. exact IH.
Qed.

Lemma xml_plugin_names_doc info :
  xml_plugin_names (xml_doc info) = map plugin_name (plugins info).
Proof.
  unfold xml_plugin_names, xml_doc. simpl.
  induction (plugins info) as [|p ps IH]; [reflexivity|].
  simpl. f_equal. exact IH.
Qed.

Lemma written_other fs name data closed other :
  other <> name -> fs_files (written fs name data closed) !! other = fs_files fs !! other.
Proof. intros Hne. unfold written. simpl. apply lookup_insert_ne. congruence. Qed.

(** C8: a call of [generate], of either writer and whether or not the file
    can be opened, leaves every object that existed before as it was, so the
    scan result is read back unchanged afterwards; no file other than the
    output file changes; and the plugins of the written report come in the
    order of the input. *)
Theorem generate_only_reads
    (c : pyclass) (h : list obj) (fs : filesystem) (ls : loc) (v : val)
    (name : string) (info : ScanResult) :
  c = ReporterJSON \/ c = ReporterXML ->
  reporter_at h ls c name ->
  read_scan h v = Some info ->
  exists r h' fs',
    generate (VRef ls) v (mkWorld h fs) = (r, mkWorld h' fs') /\
    take (length h) h' = h /\
    read_scan h' v = Some info /\
    (forall other, other <> name -> fs_files fs' !! other = fs_files fs !! other) /\
    (name ∉ fs_denied fs ->
     r = Ok tt /\
     exists doc, fs_files fs' !! name = Some [doc] /\
                 plugin_names doc = map plugin_name (plugins info)).
Proof.
  intros [-> | ->] Hr Hi.
  - rewrite (generate_JSON_run _ _ _ _ _ _ Hr Hi).
    destruct (decide (name ∈ fs_denied fs)) as [Hfs|Hfs]; eexists _, _, _;
      (split; [reflexivity|]);
      (split; [apply take_app_length|]);
      (split; [apply read_scan_app; exact Hi|]).
    + split; [reflexivity | contradiction].
    + split; [intros other Hne; apply written_other; exact Hne|].
      intros _. split; [reflexivity|].
      eexists. split; [apply written_lookup | apply json_plugin_names_doc].
  - rewrite (generate_XML_run _ _ _ _ _ _ Hr Hi).
    destruct (decide (name ∈ fs_denied fs)) as [Hfs|Hfs]; eexists _, _, _;
      (split; [reflexivity|]);
      (split; [apply take_app_length|]);
      (split; [apply read_scan_app; exact Hi|]).
    + split; [reflexivity | contradiction].
    + split; [intros other Hne; apply written_other; exact Hne|].
      intros _. split; [reflexivity|].
      eexists. split; [apply written_lookup | apply xml_plugin_names_doc].
Qed.

Lemma generate_only_reads_witness :
  exists r h' fs',
    generate (VRef 9) (VRef 8) xml_world = (r, mkWorld h' fs') /\
    take 10 h' = w_heap xml_world /\
    read_scan h' (VRef 8) = Some sample_scan.
Proof.
  destruct (generate_only_reads ReporterXML
              (w_heap xml_world) (w_fs xml_world) 9 (VRef 8) "out.xml" sample_scan)
    as (r & h' & fs' & Hrun & Htake & Hread & _).
  - right. reflexivity.
  - eexists. split; reflexivity.
  - reflexivity.
  - exists r, h', fs'. repeat split; assumption.
Defined.

(** ** File objects after [generate] *)

(** [ElementTree.write] closes the file it opened on every path: whatever
    the tree and whatever the outcome of serialisation. *)
Lemma ElementTree_write_closes root name enc h fs r w' :
  name ∉ fs_denied fs ->
  ElementTree_write root (VStr name) enc (mkWorld h fs) = (r, w') ->
  fs_handles (w_fs w') = fs_handles fs ++ [mkHandle name true].
Proof.
  intros Hfs. unfold ElementTree_write.
  rewrite (bind_ok _ _ _ _ _ (open_w_ok h fs name Hfs)).
  unfold try_finally.
  assert (Hbody : forall data,
    file_write (VFile (length (fs_handles fs))) data
      (mkWorld h (mkFS (fs_denied fs) (<[name := []]> (fs_files fs))
                       (fs_handles fs ++ [mkHandle name false]))) =
    (Ok tt, mkWorld h (written fs name data false)))
    by (intros; apply file_write_fresh).
  destruct root; cbn [w_heap];
    try (unfold file_close, bind, get_fs, put_fs; simpl;
         rewrite list_lookup_middle by reflexivity; simpl;
         rewrite insert_middle; intros [= <- <-]; reflexivity).
  destruct (xml_tree (length h) h l) as [x|e].
  - rewrite Hbody, file_close_fresh. intros [= <- <-]. reflexivity.
  - unfold bind at 1. rewrite Hbody. unfold raise.
    rewrite file_close_fresh. intros [= <- <-]. reflexivity.
Qed.

(** The XML writer leaves its file object closed, the JSON writer leaves
    its file object open: nothing in [ReporterJSON.generate] closes it. *)
Lemma ReporterXML_generate_closes h fs ls v name info :
  reporter_at h ls ReporterXML name ->
  read_scan h v = Some info ->
  name ∉ fs_denied fs ->
  exists w', generate (VRef ls) v (mkWorld h fs) = (Ok tt, w') /\
             fs_handles (w_fs w') = fs_handles fs ++ [mkHandle name true].
Proof.
  intros Hr Hi Hfs. rewrite (generate_XML_run _ _ _ _ _ _ Hr Hi).
  destruct (decide (name ∈ fs_denied fs)); [contradiction|].
  eexists. split; reflexivity.
Qed.

Lemma ReporterJSON_generate_never_closes h fs ls v name info :
  reporter_at h ls ReporterJSON name ->
  read_scan h v = Some info ->
  name ∉ fs_denied fs ->
  exists w', generate (VRef ls) v (mkWorld h fs) = (Ok tt, w') /\
             fs_handles (w_fs w') = fs_handles fs ++ [mkHandle name false].
Proof.
  intros Hr Hi Hfs. rewrite (generate_JSON_run _ _ _ _ _ _ Hr Hi).
  destruct (decide (name ∈ fs_denied fs)); [contradiction|].
  eexists. split; reflexivity.
Qed.

(** C9 fails on the code for the JSON writer: after a successful
    [generate] the one file object it opened is still open, whereas the XML
    writer has closed its own. *)
Lemma ReporterJSON_generate_leaves_file_open :
  (exists w',
     session ReporterJSON "out.json" sample_scan = (Ok tt, w') /\
     fs_handles (w_fs w') = [mkHandle "out.json" false]) /\
  (exists w',
     session ReporterXML "out.xml" sample_scan = (Ok tt, w') /\
     fs_handles (w_fs w') = [mkHandle "out.xml" true]).
Proof. split; eexists; split; vm_compute; reflexivity. Qed.

(** ** Every scan result can be stored, and then written *)

Lemma mapM_read_str_map xs : mapM read_str (map VStr xs) = Some xs.
Proof. apply mapM_Some. induction xs; constructor; auto. Qed.

Lemma make_plugin_run h fs p :
  exists t,
    make_plugin p (mkWorld h fs) = (Ok (VRef (length h + 2)), mkWorld (h ++ t) fs) /\
    forall t', read_plugin (h ++ t ++ t') (VRef (length h + 2)) = Some p.
Proof.
  exists [OList (map VStr (cves p)); OList (map VStr (exploits p));
          OData [("plugin_name", VStr (plugin_name p));
                 ("current_version", VStr (current_version p));
                 ("latest_version", VStr (latest_version p));
                 ("plugin_uri", VStr (plugin_uri p));
                 ("is_outdated", VBool (is_outdated p));
                 ("cves", VRef (length h));
                 ("exploits", VRef (length h + 1))]].
  split.
  - unfold make_plugin, new_list, bind, alloc, ret. simpl.
    rewrite !length_app, <- !app_assoc. simpl.
    replace (length h + 1 + 1) with (length h + 2) by lia. reflexivity.
  - intros t'. unfold read_plugin, read_data, read_strings, read_list.
    rewrite lookup_app_plus. simpl.
    rewrite <- (Nat.add_0_r (length h)) at 1. rewrite !lookup_app_plus. simpl.
    rewrite !mapM_read_str_map. simpl. destruct p; reflexivity.
Qed.

Lemma make_plugins_run fs ps : forall h,
  exists t vs,
    make_plugins ps (mkWorld h fs) = (Ok vs, mkWorld (h ++ t) fs) /\
    forall t', mapM (read_plugin (h ++ t ++ t')) vs = Some ps.
Proof.
  induction ps as [|p ps IH]; intros h.
  - exists [], []. split; [simpl; rewrite app_nil_r; reflexivity | reflexivity].
  - destruct (make_plugin_run h fs p) as (t1 & Hrun1 & Hread1).
    destruct (IH (h ++ t1)) as (t2 & vs & Hrun2 & Hread2).
    exists (t1 ++ t2), (VRef (length h + 2) :: vs). split.
    + simpl make_plugins. rewrite (bind_ok _ _ _ _ _ Hrun1).
      rewrite (bind_ok _ _ _ _ _ Hrun2). rewrite <- app_assoc. reflexivity.
    + intros t'. apply mapM_Some. constructor.
      * rewrite <- app_assoc. apply Hread1.
      * apply mapM_Some. rewrite <- app_assoc, app_assoc. apply Hread2.
Qed.

Lemma make_scan_read info h fs :
  exists l t,
    make_scan info (mkWorld h fs) = (Ok (VRef l), mkWorld (h ++ t) fs) /\
    read_scan (h ++ t) (VRef l) = Some info.
Proof.
  set (wp := OData [("current_version", VStr (wp_current_version (wordpress_info info)));
                    ("latest_version", VStr (wp_latest_version (wordpress_info info)))]).
  destruct (make_plugins_run fs (plugins info) (h ++ [wp])) as (t & vs & Hrun & Hread).
  set (d := [("target", VStr (target info));
             ("start_time", VDatetime (start_time info));
             ("end_time", VDatetime (end_time info));
             ("wordpress_info", VRef (length h));
             ("plugins", VRef (length h + 1 + length t))]).
  exists (length h + 1 + length t + 1), (wp :: t ++ [OList vs; OData d]).
  split.
  - unfold make_scan. unfold bind at 1, alloc at 1. cbn [w_heap w_fs].
    fold wp. rewrite (bind_ok _ _ _ _ _ Hrun).
    unfold new_list, bind, alloc, ret. cbn [w_heap w_fs].
    rewrite !length_app. cbn [length].
    rewrite <- !app_assoc. cbn [app]. subst d. repeat f_equal; lia.
  - set (F := h ++ wp :: t ++ [OList vs; OData d]).
    assert (F1 : F = (h ++ [wp]) ++ t ++ [OList vs; OData d])
      by (subst F; rewrite <- app_assoc; reflexivity).
    assert (F2 : F = ((h ++ [wp]) ++ t) ++ [OList vs; OData d])
      by (rewrite F1, app_assoc; reflexivity).
    assert (L0 : F !! (length h + 1 + length t + 1) = Some (OData d)).
    { rewrite F2.
      replace (length h + 1 + length t + 1) with (length ((h ++ [wp]) ++ t) + 1)
        by (rewrite !length_app; simpl; lia).
      rewrite lookup_app_plus. reflexivity. }
    assert (L1 : F !! length h = Some wp).
    { subst F. apply list_lookup_middle. reflexivity. }
    assert (L2 : F !! (length h + 1 + length t) = Some (OList vs)).
    { rewrite F2.
      replace (length h + 1 + length t) with (length ((h ++ [wp]) ++ t) + 0)
        by (rewrite !length_app; simpl; lia).
      rewrite lookup_app_plus. reflexivity. }
    assert (L3 : mapM (read_plugin F) vs = Some (plugins info))
      by (rewrite F1; apply Hread).
    clearbody F.
    unfold read_scan, read_data. rewrite L0. subst d. simpl.
    unfold read_wordpress, read_data. rewrite L1. subst wp. simpl.
    unfold read_list. rewrite L2. simpl. rewrite L3. simpl.
    destruct info as [? ? ? [] ?]; reflexivity.
Qed.

(** The whole session, from any scan result: it is stored, a reporter is
    made for [name], and [generate] writes the document of the scan. *)
Lemma session_JSON info name :
  exists w',
    session ReporterJSON name info = (Ok tt, w') /\
    fs_files (w_fs w') !! name = Some [JSONText (json_doc info)].
Proof.
  unfold session.
  destruct (make_scan_read info [] empty_fs) as (l & t & Hscan & Hread).
  rewrite (bind_ok _ _ _ _ _ Hscan), (bind_ok _ _ _ _ _ (instantiate_str _ _ _)).
  cbn [w_heap w_fs].
  rewrite (generate_JSON_run _ _ _ _ name info).
  - destruct (decide (name ∈ fs_denied empty_fs)) as [Hin|_].
    + exfalso. revert Hin. apply not_elem_of_empty.
    + eexists. split; [reflexivity | apply written_lookup].
  - eexists. split; [apply list_lookup_middle; reflexivity | reflexivity].
  - apply read_scan_app, Hread.
Qed.

Lemma session_XML info name :
  exists w',
    session ReporterXML name info = (Ok tt, w') /\
    fs_files (w_fs w') !! name = Some [XMLText "UTF-8" (xml_doc info)].
Proof.
  unfold session.
  destruct (make_scan_read info [] empty_fs) as (l & t & Hscan & Hread).
  rewrite (bind_ok _ _ _ _ _ Hscan), (bind_ok _ _ _ _ _ (instantiate_str _ _ _)).
  cbn [w_heap w_fs].
  rewrite (generate_XML_run _ _ _ _ name info).
  - destruct (decide (name ∈ fs_denied empty_fs)) as [Hin|_].
    + exfalso. revert Hin. apply not_elem_of_empty.
    + eexists. split; [reflexivity | apply written_lookup].
  - eexists. split; [apply list_lookup_middle; reflexivity | reflexivity].
  - apply read_scan_app, Hread.
Qed.

(** * Further properties of the module *)

(** ** Selection by extension: errors and directories *)

Lemma reporters_unknown e :
  e <> "json" -> e <> "xml" -> reporters !! e = None.
Proof.
  intros Hj Hx. destruct (reporters !! e) as [r|] eqn:Hr; [|reflexivity].
  apply reporters_lookup in Hr as [[-> _] | [-> _]]; contradiction.
Qed.

Lemma get_reporter_without_extension f w :
  (forall e, ~ has_extension f e) ->
  get_reporter (VStr f) w =
    (Raise (PlecostInvalidReportFormat "Report format '' not found."), w).
Proof.
  intros Hno. rewrite get_reporter_unfold. cbv zeta.
  destruct (_splitext f "/" None ".") as [root ext] eqn:Hs.
  apply splitext_inv in Hs as [[_ ->] | (e & _ & He)]; [reflexivity|].
  exfalso. exact (Hno e He).
Qed.

(** The error of [get_reporter] names the extension it looked up: the
    [splitext] extension of the file name without its dot, or nothing when
    the name has no extension. *)
Theorem get_reporter_error_message (f : string) (w : world) :
  (forall e, has_extension f e -> e <> "json" -> e <> "xml" ->
     get_reporter (VStr f) w =
       (Raise (PlecostInvalidReportFormat ("Report format '" +:+ e +:+ "' not found.")), w)) /\
  ((forall e, ~ has_extension f e) ->
     get_reporter (VStr f) w =
       (Raise (PlecostInvalidReportFormat "Report format '' not found."), w)).
Proof.
  split.
  - intros e He Hj Hx. rewrite (get_reporter_has_extension f e w He).
    rewrite (reporters_unknown e Hj Hx). reflexivity.
  - apply get_reporter_without_extension.
Qed.

Lemma get_reporter_error_message_witness :
  get_reporter (VStr "scan/report.txt") empty_world =
    (Raise (PlecostInvalidReportFormat "Report format 'txt' not found."), empty_world).
Proof.
  apply (proj1 (get_reporter_error_message "scan/report.txt" empty_world) "txt").
  - exists "scan/", "report". repeat split; try reflexivity. right. exists "scan". reflexivity.
  - discriminate.
  - discriminate.
Defined.

(** A file name that is not a string is not reported as a bad format: the
    [TypeError] of [splitext] passes the [except KeyError] clause, and
    nothing is changed. *)
Theorem get_reporter_rejects_non_string (v : val) (w : world) :
  (forall s, v <> VStr s) -> get_reporter v w = (Raise TypeError, w).
Proof.
  intros Hv. destruct v; try reflexivity. exfalso. apply (Hv s). reflexivity.
Qed.

Lemma get_reporter_rejects_non_string_witness :
  get_reporter VNone empty_world = (Raise TypeError, empty_world).
Proof. apply get_reporter_rejects_non_string. intros s H. discriminate H. Defined.

Lemma has_extension_in_directory d name e :
  contains "/" name = false ->
  has_extension (d +:+ "/" +:+ name) e <-> has_extension name e.
Proof.
  intros Hname. split.
  - intros (dir & nm & Heq & Hdir & Hnm & Hdots & He1 & He2).
    assert (Hrest : contains "/" (nm +:+ "." +:+ e) = false).
    { rewrite contains_app, Hnm. simpl. exact He2. }
    destruct Hdir as [-> | [b ->]].
    + exfalso. rewrite app_empty in Heq.
      assert (Hc : contains "/" (d +:+ "/" +:+ name) = true).
      { rewrite contains_app. simpl. apply orb_true_r. }
      rewrite Heq, Hrest in Hc. discriminate Hc.
    + rewrite app_assoc_str in Heq.
      change ("/" +:+ name) with (String "/"%char name) in Heq.
      change ("/" +:+ nm +:+ "." +:+ e) with (String "/"%char (nm +:+ "." +:+ e)) in Heq.
      assert (Hlen : str_len d = str_len b).
      { rewrite <- (rfind_last d "/" name Hname),
                <- (rfind_last b "/" (nm +:+ "." +:+ e) Hrest), Heq. reflexivity. }
      assert (Htail : String "/"%char name = String "/"%char (nm +:+ "." +:+ e)).
      { rewrite <- (slice_from_app d (String "/"%char name)),
                <- (slice_from_app b (String "/"%char (nm +:+ "." +:+ e))), Heq, Hlen.
        reflexivity. }
      injection Htail as ->.
      exists EmptyString, nm. repeat split; try assumption. left. reflexivity.
  - intros (dir & nm & -> & Hdir & Hnm & Hdots & He1 & He2).
    exists (d +:+ "/" +:+ dir), nm. repeat split; try assumption.
    + rewrite !app_assoc_str. reflexivity.
    + right. destruct Hdir as [-> | [b ->]].
      * exists d. reflexivity.
      * exists (d +:+ "/" +:+ b). rewrite !app_assoc_str. reflexivity.
Qed.

Lemma extension_or_none f :
  (exists e, has_extension f e) \/ (forall e, ~ has_extension f e).
Proof.
  destruct (_splitext f "/" None ".") as [root ext] eqn:Hs.
  destruct (splitext_inv _ _ _ Hs) as [[_ ->] | (e & _ & He)].
  - right. intros e He. destruct (splitext_has_extension f e He) as (r & Hr & _).
    rewrite Hs in Hr. discriminate Hr.
  - left. exists e. exact He.
Qed.

Lemma get_reporter_by_extensions f g w :
  (forall e, has_extension f e <-> has_extension g e) ->
  get_reporter (VStr f) w = get_reporter (VStr g) w.
Proof.
  intros Hfg. destruct (extension_or_none f) as [[e He] | Hno].
  - rewrite (get_reporter_has_extension f e w He).
    rewrite (get_reporter_has_extension g e w (proj1 (Hfg e) He)). reflexivity.
  - rewrite (get_reporter_without_extension f w Hno).
    rewrite (get_reporter_without_extension g w); [reflexivity|].
    intros e He. apply (Hno e), Hfg, He.
Qed.

(** [get_reporter] looks at the last path component only: the directory a
    file name is in, dots of directory names included, plays no part. *)
Theorem get_reporter_ignores_directory (d name : string) (w : world) :
  contains "/" name = false ->
  get_reporter (VStr (d +:+ "/" +:+ name)) w = get_reporter (VStr name) w.
Proof.
  intros Hname. apply get_reporter_by_extensions.
  intros e. apply has_extension_in_directory, Hname.
Qed.

Lemma get_reporter_ignores_directory_witness :
  get_reporter (VStr "scans.2015/site.xml") empty_world =
  get_reporter (VStr "site.xml") empty_world.
Proof.
  apply (get_reporter_ignores_directory "scans.2015" "site.xml" empty_world).
  reflexivity.
Defined.

(** ** Selecting, constructing and writing *)










(** Reporters do not share their file name: of two reporters made one after
    the other, each keeps the name it was given, and making them touches no
    file. *)
Theorem reporters_keep_their_own_name (c1 c2 : pyclass) (s1 s2 : string) (w : world) :
  exists r1 r2 w',
    (r1 <- call (VClass c1) [VStr s1] ;;
     r2 <- call (VClass c2) [VStr s2] ;;
     ret (r1, r2)) w = (Ok (r1, r2), w') /\
    output_filename r1 w' = (Ok (VStr s1), w') /\
    output_filename r2 w' = (Ok (VStr s2), w') /\
    w_fs w' = w_fs w.
Proof.
  eexists _, _, _. split.
  - rewrite (bind_ok _ _ _ _ _ (instantiate_str _ _ _)).
    rewrite (bind_ok _ _ _ _ _ (instantiate_str _ _ _)). reflexivity.
  - cbn [w_heap w_fs]. split; [|split; [|reflexivity]].
    + unfold output_filename.
      eapply getattr_inst; [apply list_lookup_middle; reflexivity | reflexivity].
    + apply output_filename_read.
Qed.

(** ** What [generate] does to the file system *)




(** ** What the reports keep and what they lose *)

Lemma session_file_report c name info :
  c = ReporterJSON \/ c = ReporterXML ->
  session_file c name info = Some [report_of c info].
Proof.
  unfold session_file. intros [-> | ->].
  - destruct (session_JSON info name) as (w' & -> & Hfile). exact Hfile.
  - destruct (session_XML info name) as (w' & -> & Hfile). exact Hfile.
Qed.

Lemma map_JStr_inj xs ys : map JStr xs = map JStr ys -> xs = ys.
Proof.
  revert ys. induction xs as [|x xs IH]; intros [|y ys] H; try discriminate H.
  - reflexivity.
  - injection H as -> H. rewrite (IH ys H). reflexivity.
Qed.

Lemma yes_no_inj b b' : yes_no b = yes_no b' -> b = b'.
Proof. destruct b, b'; simpl; intros H; try reflexivity; discriminate H. Qed.

Lemma json_plugin_doc_inj p q : json_plugin_doc p = json_plugin_doc q -> p = q.
Proof.
  destruct p, q. unfold json_plugin_doc. simpl.
  intros [= -> -> -> -> Hout Hc He].
  rewrite (yes_no_inj _ _ Hout), (map_JStr_inj _ _ Hc), (map_JStr_inj _ _ He).
  reflexivity.
Qed.

Lemma map_json_plugin_doc_inj ps qs :
  map json_plugin_doc ps = map json_plugin_doc qs -> ps = qs.
Proof.
  revert qs. induction ps as [|p ps IH]; intros [|q qs] H; try discriminate H.
  - reflexivity.
  - simpl in H.
    remember (json_plugin_doc p) as jp eqn:Ejp. remember (json_plugin_doc q) as jq eqn:Ejq.
    injection H as Hp H. subst jp jq.
    rewrite (json_plugin_doc_inj _ _ Hp), (IH qs H). reflexivity.
Qed.

(** The JSON report loses nothing about the target, the WordPress versions
    and the plugin findings: two scan results with the same JSON report
    agree on all of them. *)
Theorem json_report_determines_findings (name : string) (info1 info2 : ScanResult) :
  session_file ReporterJSON name info1 = session_file ReporterJSON name info2 ->
  target info1 = target info2 /\
  wordpress_info info1 = wordpress_info info2 /\
  plugins info1 = plugins info2.
Proof.
  rewrite !session_file_report by (left; reflexivity).
  unfold report_of.
  remember (json_doc info1) as j1 eqn:E1. remember (json_doc info2) as j2 eqn:E2.
  intros [= Hd]. subst j1 j2.
  pose proof (f_equal (json_get "target") Hd) as Ht.
  pose proof (f_equal (json_get "wordpress") Hd) as Hw.
  pose proof (f_equal (json_get "plugins") Hd) as Hps.
  simpl in Ht, Hw, Hps.
  injection Ht as Ht. injection Hw as Hc Hl. injection Hps as Hps.
  split; [exact Ht|]. split.
  - destruct (wordpress_info info1), (wordpress_info info2). simpl in *. congruence.
  - apply map_json_plugin_doc_inj, Hps.
Qed.

Lemma json_report_determines_findings_witness :
  target (with_days 1 2 sample_scan) = target sample_scan /\
  wordpress_info (with_days 1 2 sample_scan) = wordpress_info sample_scan /\
  plugins (with_days 1 2 sample_scan) = plugins sample_scan.
Proof.
  apply (json_report_determines_findings "out.json" (with_days 1 2 sample_scan) sample_scan).
  vm_compute. reflexivity.
Defined.

Lemma xml_plugin_doc_hidden p q :
  same_but_hidden_exploits p q -> xml_plugin_doc p = xml_plugin_doc q.
Proof.
  intros (Hn & Hc & Hl & Hu & Ho & Hcv & He).
  unfold xml_plugin_doc, xml_plugin_children.
  rewrite <- Hn, <- Hc, <- Hl, <- Hu, <- Ho, <- Hcv.
  destruct (cves p) as [|c cs]; [reflexivity|].
  rewrite <- He by discriminate. reflexivity.
Qed.

(** The XML report does lose exploits: two scan results that differ only in
    the exploits of plugins without CVE have the same XML report. *)
Theorem xml_report_hides_exploits (name : string) (info1 info2 : ScanResult) :
  target info1 = target info2 ->
  start_time info1 = start_time info2 ->
  end_time info1 = end_time info2 ->
  wordpress_info info1 = wordpress_info info2 ->
  Forall2 same_but_hidden_exploits (plugins info1) (plugins info2) ->
  session_file ReporterXML name info1 = session_file ReporterXML name info2.
Proof.
  intros Ht H0 H1 Hw Hps.
  rewrite !session_file_report by (right; reflexivity).
  assert (Hmap : map xml_plugin_doc (plugins info1) = map xml_plugin_doc (plugins info2)).
  { induction Hps as [|p q ps qs Hp _ IH]; [reflexivity|].
    simpl. rewrite (xml_plugin_doc_hidden p q Hp), IH. reflexivity. }
  unfold report_of, xml_doc. rewrite Ht, H0, H1, Hw, Hmap. reflexivity.
Qed.

Lemma xml_report_hides_exploits_witness :
  session_file ReporterXML "out.xml" (scan_of [exploit_only]) =
  session_file ReporterXML "out.xml"
    (scan_of [mkPluginFinding "gallery" "2.0" "2.0" "http://x/gallery" false [] []]).
Proof.
  apply xml_report_hides_exploits; try reflexivity.
  constructor; [|constructor].
  repeat split; try reflexivity. intros H. exfalso. apply H. reflexivity.
Defined.

Lemma format_time_set_day day d :
  format_time (set_day day d) "%H-%m-%Y %H:%M:%S" = format_time d "%H-%m-%Y %H:%M:%S".
Proof. reflexivity. Qed.

(** The day of the month never reaches a report: with other days in its
    two timestamps a scan result gives the same JSON report and the same XML
    report. *)
Theorem reports_ignore_the_day
    (name : string) (info : ScanResult) (day0 day1 : Z) :
  session_file ReporterJSON name (with_days day0 day1 info) =
    session_file ReporterJSON name info /\
  session_file ReporterXML name (with_days day0 day1 info) =
    session_file ReporterXML name info.
Proof.
  split.
  - rewrite !session_file_report by (left; reflexivity).
    unfold report_of, json_doc, with_days. simpl.
    rewrite !format_time_set_day. reflexivity.
  - rewrite !session_file_report by (right; reflexivity).
    unfold report_of, xml_doc, with_days. simpl.
    rewrite !format_time_set_day. reflexivity.
Qed.

(** ** An unknown latest version *)

Lemma ElementTree_write_fails h fs l name enc e :
  name ∉ fs_denied fs ->
  xml_tree (length h) h l = Raise e ->
  ElementTree_write (VRef l) (VStr name) enc (mkWorld h fs) =
    (Raise e, mkWorld h (written fs name PartialText true)).
Proof.
  intros Hfs Hx. unfold ElementTree_write.
  step ltac:(apply open_w_ok; exact Hfs).
  unfold try_finally. cbn [w_heap]. rewrite Hx.
  unfold bind at 1. rewrite file_write_fresh. unfold raise.
  rewrite file_close_fresh. reflexivity.
Qed.

Lemma ReporterXML_generate_unknown_latest h fs ls li name info :
  reporter_at h ls ReporterXML name ->
  scan_at_unknown_latest h li info ->
  name ∉ fs_denied fs ->
  exists h',
    ReporterXML_generate (VRef ls) (VRef li) (mkWorld h fs) =
      (Raise TypeError, mkWorld h' (written fs name PartialText true)).
Proof.
  intros (ds & Hls & Hname)
         (d & lw & dw & lp & items & Hl & Htgt & Ht0 & Ht1 & Hwp & Hlw & Hcur & Hlast
            & Hplug & Hlp & Hps) Hfs.
  eexists. unfold ReporterXML_generate.
  replace (mkWorld h fs) with (mkWorld (h ++ []) fs) by (rewrite app_nil_r; reflexivity).
  step ltac:(apply Element_at). simpl.
  step ltac:(eapply SubElement_at; reflexivity). simpl.
  step ltac:(eapply getattr_old; eassumption).
  step ltac:(eapply set_text_at; reflexivity). simpl.
  step ltac:(eapply SubElement_at; reflexivity). simpl.
  step ltac:(eapply getattr_old; eassumption).
  step ltac:(apply strftime_datetime).
  step ltac:(eapply set_text_at; reflexivity). simpl.
  step ltac:(eapply SubElement_at; reflexivity). simpl.
  step ltac:(eapply getattr_old; eassumption).
  step ltac:(apply strftime_datetime).
  step ltac:(eapply set_text_at; reflexivity). simpl.
  step ltac:(eapply SubElement_at; reflexivity). simpl.
  step ltac:(eapply getattr_old; eassumption).
  step ltac:(eapply getattr_old; eassumption).
  step ltac:(eapply Element_set_at; reflexivity). simpl.
  step ltac:(eapply getattr_old; eassumption).
  step ltac:(eapply getattr_old; eassumption).
  step ltac:(eapply Element_set_at; reflexivity). simpl.
  step ltac:(eapply SubElement_at; reflexivity). simpl.
  step ltac:(eapply getattr_old; eassumption).
  step ltac:(eapply iter_old; eassumption).
  step ltac:(eapply ReporterXML_loop_run; exact Hps).
  simpl. rewrite !Nat.add_0_r.
  step ltac:(unfold output_filename; eapply getattr_inst; eassumption).
  apply ElementTree_write_fails; [exact Hfs|].
  set (o0 := OElement "libs" _ _ _).
  set (o1 := OElement "target" _ _ _).
  set (o2 := OElement "start_time" _ _ _).
  set (o3 := OElement "end_time" _ _ _).
  set (o4 := OElement "wordpress" _ _ _).
  set (rest := OElement "plugins" _ _ _ :: _).
  clearbody rest.
  remember (h ++ o0 :: o1 :: o2 :: o3 :: o4 :: rest) as hh eqn:Ehh.
  assert (exists f, length hh = S (S f)) as [f ->].
  { subst hh. rewrite length_app. cbn [length].
    exists (length h + (3 + length rest)). lia. }
  assert (L0 : hh !! length h = Some o0).
  { subst hh. apply list_lookup_middle. reflexivity. }
  assert (L1 : hh !! (length h + 1) = Some o1).
  { subst hh. rewrite lookup_app_plus. reflexivity. }
  assert (L2 : hh !! (length h + 2) = Some o2).
  { subst hh. rewrite lookup_app_plus. reflexivity. }
  assert (L3 : hh !! (length h + 3) = Some o3).
  { subst hh. rewrite lookup_app_plus. reflexivity. }
  assert (L4 : hh !! (length h + 4) = Some o4).
  { subst hh. rewrite lookup_app_plus. reflexivity. }
  clear Ehh.
  cbn [xml_tree]. rewrite L0. subst o0.
  cbn [map sequence xml_attr xml_text fst snd].
  rewrite L1, L2, L3, L4. subst o1 o2 o3 o4.
  cbn [map sequence xml_attr xml_text fst snd]. reflexivity.
Qed.

Lemma encode_json_heap_unknown_latest h info :
  h <> [] ->
  let hh :=
    h ++ ODict [("target", VStr (target info));
                ("start_time", VStr (format_time (start_time info) "%H-%m-%Y %H:%M:%S"));
                ("end_time", VStr (format_time (end_time info) "%H-%m-%Y %H:%M:%S"));
                ("wordpress", VRef (length h + 1));
                ("plugins", VRef (length h + 2))]
      :: ODict [("current_version", VStr (wp_current_version (wordpress_info info)));
                ("last_version", VNone)]
      :: OList (json_refs (length h + 3) (plugins info))
      :: json_blocks (length h + 3) (plugins info) in
  json_encode (length hh) hh (VRef (length h)) = Ok (json_doc_unknown_latest info).
Proof.
  intros Hne hh.
  assert (exists f, length hh = S (S (S (S f)))) as [f ->].
  { subst hh. rewrite length_app. destruct h; [contradiction|]. simpl.
    set (n := length (json_blocks _ _)). exists (length h + n). lia. }
  subst hh.
  simpl json_encode. rewrite list_lookup_middle by reflexivity.
  cbn [map fst snd sequence result_map json_encode].
  rewrite !lookup_app_plus. simpl.
  pose proof (encode_json_blocks f (plugins info)
                (h ++ [ODict [("target", VStr (target info));
              ("start_time", VStr (format_time (start_time info) "%H-%m-%Y %H:%M:%S"));
              ("end_time", VStr (format_time (end_time info) "%H-%m-%Y %H:%M:%S"));
              ("wordpress", VRef (length h + 1)%nat);
              ("plugins", VRef (length h + 2)%nat)];
                       ODict [("current_version", VStr (wp_current_version (wordpress_info info)));
              ("last_version", VNone)];
                       OList (json_refs (length h + 3) (plugins info))]) []) as E.
  rewrite length_app, app_nil_r, <- app_assoc in E. simpl in E.
  rewrite E. reflexivity.
Qed.

Lemma ReporterJSON_generate_unknown_latest h fs ls li name info :
  reporter_at h ls ReporterJSON name ->
  scan_at_unknown_latest h li info ->
  name ∉ fs_denied fs ->
  exists h',
    ReporterJSON_generate (VRef ls) (VRef li) (mkWorld h fs) =
      (Ok tt, mkWorld h' (written fs name (JSONText (json_doc_unknown_latest info)) false)).
Proof.
  intros (ds & Hls & Hname)
         (d & lw & dw & lp & items & Hl & Htgt & Ht0 & Ht1 & Hwp & Hlw & Hcur & Hlast
            & Hplug & Hlp & Hps) Hfs.
  eexists. unfold ReporterJSON_generate.
  replace (mkWorld h fs) with (mkWorld (h ++ []) fs) by (rewrite app_nil_r; reflexivity).
  step ltac:(apply new_dict_at). simpl.
  step ltac:(eapply getattr_old; eassumption).
  step ltac:(apply setitem_at; reflexivity). simpl.
  step ltac:(eapply getattr_old; eassumption).
  step ltac:(apply strftime_datetime).
  step ltac:(apply setitem_at; reflexivity). simpl.
  step ltac:(eapply getattr_old; eassumption).
  step ltac:(apply strftime_datetime).
  step ltac:(apply setitem_at; reflexivity). simpl.
  step ltac:(eapply getattr_old; eassumption).
  step ltac:(eapply getattr_old; eassumption).
  step ltac:(eapply getattr_old; eassumption).
  step ltac:(eapply getattr_old; eassumption).
  step ltac:(apply new_dict_at). simpl.
  step ltac:(apply setitem_at; reflexivity). simpl.
  step ltac:(apply new_list_at). simpl.
  step ltac:(apply setitem_at; reflexivity). simpl.
  step ltac:(eapply getattr_old; eassumption).
  step ltac:(eapply iter_old; eassumption).
  rewrite Nat.add_0_r.
  step ltac:(eapply ReporterJSON_loop_run; [exact Hps | reflexivity]).
  simpl. rewrite Nat.add_0_r.
  step ltac:(unfold output_filename; eapply getattr_inst; eassumption).
  step ltac:(apply open_w_ok; exact Hfs).
  unfold json_dump. cbn [w_heap].
  rewrite (encode_json_heap_unknown_latest h info) by (intros ->; discriminate Hl).
  apply file_write_fresh.
Qed.

(** When the latest WordPress version is not known, that is [None], the two
    writers part ways.  The JSON writer writes [null] for [last_version].
    The XML writer raises [TypeError], since an attribute value must be a
    string, and it does so while serialising: the output file has been
    truncated by then and is left with an incomplete document (and
    closed). *)
Theorem unknown_latest_version
    (h : list obj) (fs : filesystem) (lj lx li : loc) (nj nx : string)
    (info : ScanResult) :
  reporter_at h lj ReporterJSON nj ->
  reporter_at h lx ReporterXML nx ->
  scan_at_unknown_latest h li info ->
  nj ∉ fs_denied fs ->
  nx ∉ fs_denied fs ->
  (exists w' j,
     generate (VRef lj) (VRef li) (mkWorld h fs) = (Ok tt, w') /\
     fs_files (w_fs w') !! nj = Some [JSONText j] /\
     (json_get "wordpress" j ≫= json_get "last_version") = Some JNull) /\
  (exists w',
     generate (VRef lx) (VRef li) (mkWorld h fs) = (Raise TypeError, w') /\
     fs_files (w_fs w') !! nx = Some [PartialText] /\
     fs_handles (w_fs w') = fs_handles fs ++ [mkHandle nx true]).
Proof.
  intros Hj Hx Hi Hfj Hfx. split.
  - destruct (ReporterJSON_generate_unknown_latest h fs lj li nj info Hj Hi Hfj)
      as (h' & Hrun).
    eexists _, _. split; [|split].
    + rewrite (generate_JSON _ _ _ _ _ Hj). exact Hrun.
    + apply written_lookup.
    + reflexivity.
  - destruct (ReporterXML_generate_unknown_latest h fs lx li nx info Hx Hi Hfx)
      as (h' & Hrun).
    eexists. split; [|split].
    + rewrite (generate_XML _ _ _ _ _ Hx). exact Hrun.
    + apply written_lookup.
    + reflexivity.
Qed.

Lemma unknown_latest_version_witness :
  (exists w',
     generate (VRef 9) (VRef 8) unknown_latest_world = (Ok tt, w')) /\
  (exists w',
     generate (VRef 10) (VRef 8) unknown_latest_world = (Raise TypeError, w') /\
     fs_files (w_fs w') !! "out.xml" = Some [PartialText]).
Proof.
  destruct (unknown_latest_version
              (w_heap unknown_latest_world) (w_fs unknown_latest_world)
              9 10 8 "out.json" "out.xml" sample_scan)
    as [(wj & j & Hj & _) (wx & Hx & Hf & _)].
  - eexists. split; reflexivity.
  - eexists. split; reflexivity.
  - exists [("target", VStr "http://example.com");
            ("start_time", VDatetime (start_time sample_scan));
            ("end_time", VDatetime (end_time sample_scan));
            ("wordpress_info", VRef 0); ("plugins", VRef 7)],
           0, [("current_version", VStr "4.1"); ("latest_version", VNone)],
           7, [VRef 3; VRef 6].
    repeat (split; [reflexivity|]).
    constructor; [|constructor; [|constructor]].
    + exists 3. split; [reflexivity|]. eexists _, _, _. repeat split; reflexivity.
    + exists 6. split; [reflexivity|]. eexists _, _, _. repeat split; reflexivity.
  - apply not_elem_of_empty.
  - apply not_elem_of_empty.
  - split; [exists wj; exact Hj | exists wx; split; [exact Hx | exact Hf]].
Defined.

(** ** The two formats side by side *)

(** The JSON report and the XML report of one scan result agree: same
    target and timestamps, and plugin by plugin, in the same order, the same
    name, versions, URL and outdated flag. *)
Theorem reports_agree (nj nx : string) (info : ScanResult) :
  exists dj dx,
    session_file ReporterJSON nj info = Some [dj] /\
    session_file ReporterXML nx info = Some [dx] /\
    text_field "target" dj = text_field "target" dx /\
    text_field "start_time" dj = text_field "start_time" dx /\
    text_field "end_time" dj = text_field "end_time" dx /\
    Forall2 (fun j x =>
               (json_get "plugin_name" j ≫= json_string) = xml_text_of x /\
               forall k, k ∈ ["current_version"; "last_version"; "url"; "outdated"] ->
                         (json_get k j ≫= json_string) = assoc k (xml_attrs x))
            (json_plugin_items dj) (xml_plugin_items dx).
Proof.
  exists (report_of ReporterJSON info), (report_of ReporterXML info).
  split; [apply session_file_report; left; reflexivity|].
  split; [apply session_file_report; right; reflexivity|].
  repeat (split; [reflexivity|]).
  unfold report_of, json_plugin_items, xml_plugin_items, json_doc, xml_doc. simpl.
  induction (plugins info) as [|p ps IH]; [constructor|].
  simpl. constructor; [|exact IH].
  split; [reflexivity|].
  intros k Hk. repeat (apply elem_of_cons in Hk as [-> | Hk]; [reflexivity|]).
  apply elem_of_nil in Hk. contradiction.
Qed.

(** ** [splitext] *)

(** The two parts [splitext] returns make up the path again, and the
    extension is empty or starts with a dot and has no other dot and no
    separator. *)
Theorem splitext_rejoins (p : string) :
  let parts := _splitext p "/" None "." in
  fst parts +:+ snd parts = p /\
  (snd parts = EmptyString \/
   exists e, snd parts = "." +:+ e /\ contains "." e = false /\ contains "/" e = false).
Proof.
  cbv zeta. destruct (_splitext p "/" None ".") as [root ext] eqn:Hs. simpl.
  destruct (splitext_inv _ _ _ Hs) as [[-> ->] | (e & -> & He)].
  - split; [apply append_empty_r | left; reflexivity].
  - destruct (splitext_has_extension p e He) as (root' & Hs' & Hp).
    rewrite Hs in Hs'. injection Hs' as ->.
    split; [symmetry; exact Hp|].
    right. exists e. destruct He as (dir & nm & _ & _ & _ & _ & He1 & He2). auto.
Qed.
